(** * VoiceGuard: acoustic feature extraction and heuristic scoring

    A shallow embedding of [VoiceGuard_Final_Code/model.py] (class
    [VoiceClassifier]) and of [VoiceGuard_Final_Code/utils.py]
    ([decode_audio]), with the properties of the scoring engine, of the
    harmonic-to-noise computation and of the minimum-duration check.

    Python [float] values are IEEE 754 binary64 numbers; they are modelled by
    Rocq's primitive [float], whose operations are the binary64 ones, so a
    score computed here is bit for bit the score the interpreter computes.
    Decimal literals such as [0.15] denote, as in Python, the nearest binary64
    value. *)

From Stdlib Require Import ZArith List String Ascii Bool Lia Floats.
From Stdlib Require Import DecimalString.
Import ListNotations.

Set Warnings "-inexact-float".

Local Open Scope string_scope.
Local Open Scope list_scope.

(* ================================================================== *)
(** ** Python values and builtins *)

(** Exceptions.  [decode_audio] and the endpoint distinguish [ValueError]
    from every other [Exception]; both carry the text [str(e)] returns. *)
Inductive exn : Type :=
| ValueError (msg : string)
| OtherError (msg : string).

Definition exn_str (e : exn) : string :=
  match e with
  | ValueError m => m
  | OtherError m => m
  end.

(** A computation that returns or raises. *)
Inductive result (A : Type) : Type :=
| Ok (a : A)
| Raise (e : exn).
Arguments Ok {A} a.
Arguments Raise {A} e.

Definition bind {A B : Type} (r : result A) (k : A -> result B) : result B :=
  match r with
  | Ok a => k a
  | Raise e => Raise e
  end.

Notation "x <- r ;; k" := (bind r (fun x => k))
  (at level 61, r at next level, right associativity).

(** [try: body  except: handler] with a bare [except] clause. *)
Definition try_except {A : Type} (body : result A) (handler : exn -> result A)
  : result A :=
  match body with
  | Ok a => Ok a
  | Raise e => handler e
  end.

Module Py.

Local Open Scope float_scope.

(** Python comparisons on floats: [a > b] is [b < a]; a comparison with a
    NaN operand is false. *)
Definition lt (a b : float) : bool := PrimFloat.ltb a b.
Definition gt (a b : float) : bool := PrimFloat.ltb b a.
Definition ge (a b : float) : bool := PrimFloat.leb b a.

(** [min(a, b)] and [max(a, b)] keep the first argument unless the second
    one compares strictly smaller (greater). *)
Definition min (a b : float) : float := if lt b a then b else a.
Definition max (a b : float) : float := if gt b a then b else a.

(** The nearest integer, ties to even, to [n / d], for [0 <= n], [0 < d]. *)
Definition div_half_even (n d : Z) : Z :=
  let q := (n / d)%Z in
  let r := (n mod d)%Z in
  match (2 * r ?= d)%Z with
  | Lt => q
  | Gt => (q + 1)%Z
  | Eq => if Z.even q then q else (q + 1)%Z
  end.

(** The nearest integer, ties to even, to [m * 2^e * p]: the exact value
    of a finite float of mantissa [m] and exponent [e], scaled by [p]. *)
Definition scaled_half_even (m : positive) (e : Z) (p : Z) : Z :=
  if (0 <=? e)%Z then (Zpos m * 2 ^ e * p)%Z
  else div_half_even (Zpos m * p) (2 ^ (- e)).

(** The binary64 value nearest to [n / d], for positive [n] and [d]. *)
Definition nearest_quotient (s : bool) (n d : positive) : float :=
  SF2Prim (SFdiv prec emax (S754_finite s n 0) (S754_finite false d 0)).

(** [round(x, ndigits)] on a float, for [0 <= ndigits]: the decimal with
    [ndigits] fractional digits nearest to the exact value of [x] (ties to
    even), read back as the nearest float.  Infinities and NaN round to
    themselves. *)
Definition round (x : float) (ndigits : Z) : float :=
  match Prim2SF x with
  | S754_finite s m e =>
      let p := (10 ^ ndigits)%Z in
      match scaled_half_even m e p with
      | Zpos n => nearest_quotient s n (Z.to_pos p)
      | _ => if s then neg_zero else zero
      end
  | _ => x
  end.

(** [float(n)] for an integer, raising [OverflowError] when too large. *)
Definition float_of_Z (n : Z) : result float :=
  match binary_normalize prec emax n 0 false with
  | S754_infinity _ => Raise (OtherError "int too large to convert to float")
  | sf => Ok (SF2Prim sf)
  end.

(** [n < x] for an integer [n] and a float [x]: Python compares the exact
    values. *)
Definition int_lt_float (n : Z) (x : float) : bool :=
  match Prim2SF x with
  | S754_nan => false
  | S754_infinity s => negb s
  | S754_zero _ => (n <? 0)%Z
  | S754_finite s m e =>
      let v := if s then Zneg m else Zpos m in
      if (0 <=? e)%Z then (n <? v * 2 ^ e)%Z
      else (n * 2 ^ (- e) <? v)%Z
  end.

(** Decimal digits of a natural number, left-padded with zeros to [width]. *)
Definition digits (n : Z) : string :=
  NilZero.string_of_uint (N.to_uint (Z.to_N n)).

Fixpoint zeros (k : nat) : string :=
  match k with
  | O => EmptyString
  | S k' => String "0" (zeros k')
  end.

Definition pad_digits (width : nat) (n : Z) : string :=
  let s := digits n in
  append (zeros (width - String.length s)) s.

Definition sign_str (s : bool) : string := if s then "-" else "".

(** [format(x, '.<d>f')], which an f-string field [{x:.<d>f}] produces:
    the exact value of [x] rounded (ties to even) to [d] fractional
    digits. *)
Definition format_fixed (d : nat) (x : float) : string :=
  let p := (10 ^ Z.of_nat d)%Z in
  let frac (n : Z) : string :=
    match d with
    | O => ""
    | _ => append "." (pad_digits d (n mod p))
    end in
  match Prim2SF x with
  | S754_nan => "nan"
  | S754_infinity s => append (sign_str s) "inf"
  | S754_zero s => append (sign_str s) (append "0" (frac 0%Z))
  | S754_finite s m e =>
      let n := scaled_half_even m e p in
      append (sign_str s) (append (digits (n / p)) (frac n))
  end.

(** [sep.join(parts)]. *)
Fixpoint join (sep : string) (parts : list string) : string :=
  match parts with
  | [] => ""
  | [s] => s
  | s :: rest => append s (append sep (join sep rest))
  end.

(** [a[start:stop]] and [a[start:]] for non-negative bounds. *)
Definition slice {A : Type} (a : list A) (start stop : nat) : list A :=
  firstn (stop - start) (skipn start a).
Definition slice_from {A : Type} (a : list A) (start : nat) : list A :=
  skipn start a.

End Py.

(* ================================================================== *)
(** ** The classifier: thresholds, features, scoring state *)

Local Open Scope float_scope.

(** The attributes [VoiceClassifier.__init__] sets. *)
Record VoiceClassifier : Type := {
  PITCH_STD_THRESHOLD : float;
  JITTER_THRESHOLD : float;
  SHIMMER_THRESHOLD : float;
  HNR_THRESHOLD : float;
  SILENCE_RATIO_THRESHOLD : float
}.

Definition VoiceClassifier_init : VoiceClassifier := {|
  PITCH_STD_THRESHOLD := 20.0;
  JITTER_THRESHOLD := 0.03;
  SHIMMER_THRESHOLD := 0.05;
  HNR_THRESHOLD := 15.0;
  SILENCE_RATIO_THRESHOLD := 0.05
|}.

(** The module's global instance. *)
Definition classifier : VoiceClassifier := VoiceClassifier_init.

(** The dictionary [extract_features] returns: seven float entries. *)
Record FeatureSet : Type := {
  pitch_std : float;
  pitch_mean : float;
  jitter : float;
  shimmer : float;
  hnr : float;
  spectral_flatness : float;
  silence_ratio : float
}.

Inductive Label : Type := AI_GENERATED | HUMAN.

Definition label_str (l : Label) : string :=
  match l with
  | AI_GENERATED => "AI_GENERATED"
  | HUMAN => "HUMAN"
  end.

(** The three locals [predict] updates while it walks the rules: [score],
    the list [explanations] and the dictionary [feature_scores] (kept as the
    list of its insertions; it is only logged). *)
Record Scoring : Type := {
  score : float;
  explanations : list string;
  feature_scores : list (string * float)
}.

(** [score = 0] is the integer 0; the first rule adds a float to it or
    subtracts one from it, which gives what the float 0.0 gives. *)
Definition scoring_init : Scoring :=
  {| score := 0; explanations := []; feature_scores := [] |}.

(** [score += c; feature_scores[key] = c; explanations.append(note)] *)
Definition credit (key : string) (c : float) (note : string) (st : Scoring)
  : Scoring :=
  {| score := score st + c;
     explanations := explanations st ++ [note];
     feature_scores := feature_scores st ++ [(key, c)] |}.

(** [score += c; explanations.append(note)] *)
Definition raise_score (c : float) (note : string) (st : Scoring) : Scoring :=
  {| score := score st + c;
     explanations := explanations st ++ [note];
     feature_scores := feature_scores st |}.

(** [score -= c] *)
Definition lower_score (c : float) (st : Scoring) : Scoring :=
  {| score := score st - c;
     explanations := explanations st;
     feature_scores := feature_scores st |}.

(** [explanations.append(note)] *)
Definition append_note (note : string) (st : Scoring) : Scoring :=
  {| score := score st;
     explanations := explanations st ++ [note];
     feature_scores := feature_scores st |}.

(** *** The notes *)

Definition note_monotone (f : FeatureSet) : string :=
  "Monotone pitch pattern (std: " ++ Py.format_fixed 1 (pitch_std f) ++ "Hz)".
Definition note_natural_pitch (f : FeatureSet) : string :=
  "Natural pitch variation (std: " ++ Py.format_fixed 1 (pitch_std f) ++ "Hz)".
Definition note_jitter (f : FeatureSet) : string :=
  "Perfect pitch timing (jitter: " ++ Py.format_fixed 3 (jitter f) ++ ")".
Definition note_shimmer (f : FeatureSet) : string :=
  "Uniform amplitude (shimmer: " ++ Py.format_fixed 3 (shimmer f) ++ ")".
Definition note_clarity (f : FeatureSet) : string :=
  "Synthetic clarity (HNR: " ++ Py.format_fixed 1 (hnr f) ++ "dB)".
Definition note_noise (f : FeatureSet) : string :=
  "Unusual noise pattern (HNR: " ++ Py.format_fixed 1 (hnr f) ++ "dB)".
Definition note_tonal : string := "Overly tonal spectrum".
Definition note_pauses : string := "Lack of natural pauses".

(** *** The six rules of [predict], in source order *)

(** 1. Pitch consistency check. *)
Definition check_pitch (self : VoiceClassifier) (f : FeatureSet) (st : Scoring)
  : Scoring :=
  if Py.lt (pitch_std f) (PITCH_STD_THRESHOLD self)
  then credit "pitch" 0.25 (note_monotone f) st
  else append_note (note_natural_pitch f) (lower_score 0.15 st).

(** 2. Jitter check. *)
Definition check_jitter (self : VoiceClassifier) (f : FeatureSet) (st : Scoring)
  : Scoring :=
  if Py.lt (jitter f) (JITTER_THRESHOLD self)
  then credit "jitter" 0.25 (note_jitter f) st
  else lower_score 0.15 st.

(** 3. Shimmer check. *)
Definition check_shimmer (self : VoiceClassifier) (f : FeatureSet) (st : Scoring)
  : Scoring :=
  if Py.lt (shimmer f) (SHIMMER_THRESHOLD self)
  then credit "shimmer" 0.2 (note_shimmer f) st
  else lower_score 0.1 st.

(** 4. HNR check ([if ... elif ...], no [else]). *)
Definition check_hnr (f : FeatureSet) (st : Scoring) : Scoring :=
  if Py.gt (hnr f) 20.0
  then credit "hnr" 0.15 (note_clarity f) st
  else if Py.lt (hnr f) 10.0
  then raise_score 0.1 (note_noise f) st
  else st.

(** 5. Spectral flatness. *)
Definition check_flatness (f : FeatureSet) (st : Scoring) : Scoring :=
  if Py.lt (spectral_flatness f) 0.01
  then raise_score 0.1 note_tonal st
  else st.

(** 6. Silence ratio. *)
Definition check_silence (f : FeatureSet) (st : Scoring) : Scoring :=
  if Py.lt (silence_ratio f) 0.02
  then raise_score 0.05 note_pauses st
  else st.

(** The state after the six rules. *)
Definition run_rules (self : VoiceClassifier) (f : FeatureSet) : Scoring :=
  check_silence f
    (check_flatness f
      (check_hnr f
        (check_shimmer self f
          (check_jitter self f
            (check_pitch self f scoring_init))))).

(** [ai_probability = 0.5 + (score * 0.8)], then
    [ai_probability = max(0.01, min(0.99, ai_probability))]. *)
Definition raw_probability (st : Scoring) : float := 0.5 + (score st * 0.8).

Definition ai_probability (self : VoiceClassifier) (f : FeatureSet) : float :=
  Py.max 0.01 (Py.min 0.99 (raw_probability (run_rules self f))).

(** The traits listed in the explanation of a [HUMAN] result. *)
Definition human_traits (self : VoiceClassifier) (f : FeatureSet) : list string :=
  (if Py.ge (pitch_std f) (PITCH_STD_THRESHOLD self)
   then ["dynamic intonation"] else [])
  ++ (if Py.ge (jitter f) (JITTER_THRESHOLD self)
      then ["natural pitch variation"] else [])
  ++ (if Py.ge (shimmer f) (SHIMMER_THRESHOLD self)
      then ["organic amplitude changes"] else []).

(** What [predict] computes before it rounds the confidence:
    [classification], [confidence] and [main_explanation]. *)
Definition decide (self : VoiceClassifier) (f : FeatureSet)
  : Label * float * string :=
  let st := run_rules self f in
  let p := ai_probability self f in
  if Py.gt p 0.5 then
    (AI_GENERATED, p,
     if (0 <? List.length (explanations st))%nat
     then Py.join " | " (Py.slice (explanations st) 0 3)
     else "Multiple synthetic audio patterns detected")
  else
    (HUMAN, 1.0 - p,
     match human_traits self f with
     | [] => "Natural pitch variation and prosody detected"
     | traits =>
         ("Natural speech characteristics: " ++ Py.join ", " traits)%string
     end).

(** [predict], from the feature dictionary on:
    [return classification, round(confidence, 2), main_explanation].  The
    [logger.info] record written before the return is not modelled. *)
Definition predict_features (self : VoiceClassifier) (f : FeatureSet)
  : Label * float * string :=
  let '(classification, confidence, main_explanation) := decide self f in
  (classification, Py.round confidence 2, main_explanation).

(* ================================================================== *)
(** ** NumPy and librosa

    An array is the list of its values, each a binary64 value (a float32
    value, as [decode_audio] produces, is one too).  Comparisons, masks,
    slices and counts are exact on them.  The elementwise arithmetic the
    source applies itself ([np.diff], [np.abs], [np.clip], differences,
    quotients) is written with the binary64 operations, NumPy's arithmetic on
    float64 arrays; on a float32 array NumPy rounds each result to float32 in
    addition, and no property below depends on that rounding.  The routines
    whose code is NumPy's or librosa's own (reductions, logarithm, framing,
    autocorrelation, pitch tracking) are fields of [Externals]: every
    function of the extractor takes them as a parameter, and a theorem that
    needs one of their properties states it as a hypothesis. *)

Record Externals : Type := {
  (** [np.mean], [np.std] and [np.log10] (on a scalar) *)
  np_mean : list float -> float;
  np_std : list float -> float;
  np_log10 : float -> float;
  (** [librosa.autocorrelate(y)] *)
  librosa_autocorrelate : list float -> result (list float);
  (** [librosa.feature.rms(y=y, frame_length=.., hop_length=..)], a
      two-dimensional array; [None] is an argument left to its default *)
  librosa_feature_rms :
    list float -> option Z -> option Z -> result (list (list float));
  (** [librosa.feature.spectral_flatness(y=y)], two-dimensional too *)
  librosa_feature_spectral_flatness : list float -> result (list (list float));
  (** [librosa.note_to_hz(note)] *)
  librosa_note_to_hz : string -> result float;
  (** [librosa.pyin(y, fmin=.., fmax=.., sr=.., frame_length=..)]:
      [(f0, voiced_flag, voiced_probs)] *)
  librosa_pyin :
    list float -> float -> float -> Z -> Z ->
    result (list float * list bool * list float)
}.

Module Np.

(** [np.diff(a)]: [a[i+1] - a[i]]. *)
Fixpoint diff (a : list float) : list float :=
  match a with
  | x :: (y :: _) as rest => (y - x) :: diff rest
  | _ => []
  end.

(** [np.abs(a)]. *)
Definition abs (a : list float) : list float := map PrimFloat.abs a.

(** [np.clip(x, lo, hi)], that is [minimum(maximum(x, lo), hi)]; a NaN
    comes out as NaN. *)
Definition clip (x lo hi : float) : float :=
  if PrimFloat.is_nan x then x
  else if Py.lt x lo then lo
  else if Py.gt x hi then hi
  else x.

(** [a[mask]] for a boolean mask of the same length. *)
Definition mask (a : list float) (flags : list bool) : result (list float) :=
  if (List.length a =? List.length flags)%nat
  then Ok (map fst (filter snd (combine a flags)))
  else Raise (OtherError "boolean index did not match indexed array").

(** [a[0]]. *)
Definition first {A : Type} (a : list A) : result A :=
  match a with
  | x :: _ => Ok x
  | [] => Raise (OtherError "index 0 is out of bounds")
  end.

(** [np.sum(a < c)]. *)
Definition count_lt (a : list float) (c : float) : nat :=
  List.length (filter (fun x => Py.lt x c) a).

(** An integer count as a float64 (exact below 2^53). *)
Definition of_nat (n : nat) : float :=
  SF2Prim (binary_normalize prec emax (Z.of_nat n) 0 false).

(** [x.astype(np.float32)] on an integer sample, and the rounding of a
    binary64 value to float32 precision (the result is a float32 value, held
    in a binary64). *)
Definition astype_float32 (n : Z) : float :=
  SF2Prim (binary_normalize 24 128 n 0 false).

Definition to_float32 (x : float) : float :=
  match Prim2SF x with
  | S754_finite s m e => SF2Prim (binary_round 24 128 s m e)
  | _ => x
  end.

End Np.

(** [try: return body  except: return default]. *)
Definition catch_default {A : Type} (body : result A) (default : A) : A :=
  match body with
  | Ok a => a
  | Raise _ => default
  end.

(* ================================================================== *)
(** ** Feature extraction *)

Section Extractor.

Variable lib : Externals.

(** [preemphasis(self, signal, coeff=0.97)]:
    [np.append(signal[0], signal[1:] - coeff * signal[:-1])], with the
    elementwise arithmetic at float64 precision. *)
Definition preemphasis (signal : list float) (coeff : float)
  : result (list float) :=
  x0 <- Np.first signal ;;
  Ok (x0 :: map (fun '(a, b) => a - coeff * b)
              (combine (Py.slice_from signal 1) (removelast signal))).

(** [calculate_jitter(self, y, sr, f0)]. *)
Definition calculate_jitter (y : list float) (sr : Z) (f0 : list float) : float :=
  catch_default
    (let f0_voiced := filter (fun x => Py.gt x 0) f0 in
     if (List.length f0_voiced <? 2)%nat then Ok 0.0
     else
       let periods := map (fun x => 1.0 / x) f0_voiced in
       let period_diffs := Np.abs (Np.diff periods) in
       Ok (if Py.gt (np_mean lib periods) 0
           then np_mean lib period_diffs / np_mean lib periods
           else 0))
    0.0.

(** [calculate_shimmer(self, y, sr)]. *)
Definition calculate_shimmer (y : list float) (sr : Z) : float :=
  catch_default
    (frames <- librosa_feature_rms lib y (Some 2048%Z) (Some 512%Z) ;;
     rms <- Np.first frames ;;
     if (List.length rms <? 2)%nat then Ok 0.0
     else
       let rms_diffs := Np.abs (Np.diff rms) in
       Ok (if Py.gt (np_mean lib rms) 0
           then np_mean lib rms_diffs / np_mean lib rms
           else 0))
    0.0.

(** The test of the loop body of [calculate_hnr]:
    [autocorr[i] > autocorr[i-1] and autocorr[i] > autocorr[i+1]]. *)
Definition is_local_max (autocorr : list float) (i : nat) : bool :=
  Py.gt (nth i autocorr nan) (nth (i - 1) autocorr nan)
  && Py.gt (nth i autocorr nan) (nth (i + 1) autocorr nan).

(** [range(1, stop)]. *)
Definition range_from_1 (stop : Z) : list nat := seq 1 (Z.to_nat stop - 1).

(** The loop of [calculate_hnr] that fills [peaks]. *)
Definition find_peaks (autocorr : list float) (sr : Z) : list (nat * float) :=
  fold_left
    (fun peaks i =>
       if ((0 <? Z.of_nat i) && (Z.of_nat i <? Z.of_nat (List.length autocorr) - 1))%Z
       then if is_local_max autocorr i
            then peaks ++ [(i, nth i autocorr nan)]
            else peaks
       else peaks)
    (range_from_1 (Z.min (Z.of_nat (List.length autocorr)) (sr / 50)))
    [].

(** [max(peaks, key=lambda x: x[1])] on a non-empty list: the first item
    that no later item exceeds. *)
Definition max_by_value (p : nat * float) (ps : list (nat * float))
  : nat * float :=
  fold_left (fun best x => if Py.gt (snd x) (snd best) then x else best) ps p.

(** The samples averaged into [noise_power]. *)
Definition noise_window (autocorr : list float) (peak_idx : nat) : list float :=
  if (peak_idx + 50 <? List.length autocorr)%nat
  then Py.slice autocorr (peak_idx + 1) (peak_idx + 50)
  else Py.slice_from autocorr (peak_idx + 1).

(** [calculate_hnr] after the autocorrelation has been computed. *)
Definition hnr_of_autocorr (autocorr : list float) (sr : Z) : float :=
  match find_peaks autocorr sr with
  | [] => 10.0
  | p :: ps =>
      let '(peak_idx, peak_val) := max_by_value p ps in
      let signal_power := peak_val in
      let noise_power := np_mean lib (noise_window autocorr peak_idx) in
      if Py.gt noise_power 0
      then
        let hnr_db := 10 * np_log10 lib (signal_power / noise_power) in
        Np.clip hnr_db 0 40
      else 10.0
  end.

(** [calculate_hnr(self, y, sr)]. *)
Definition calculate_hnr (y : list float) (sr : Z) : float :=
  catch_default
    (autocorr <- librosa_autocorrelate lib y ;;
     Ok (hnr_of_autocorr autocorr sr))
    10.0.

(** The pitch block of [extract_features]:
    [(pitch_std, pitch_mean, f0)] as they stand after the [try] statement. *)
Definition pitch_statistics (y_proc : list float) (sr : Z)
  : float * float * list float :=
  catch_default
    (fmin <- librosa_note_to_hz lib "C2" ;;
     fmax <- librosa_note_to_hz lib "C7" ;;
     r <- librosa_pyin lib y_proc fmin fmax sr 2048%Z ;;
     let '(f0, voiced_flag, voiced_probs) := r in
     pitch_values <- Np.mask f0 voiced_flag ;;
     if (List.length pitch_values =? 0)%nat
     then Ok (0, 0, f0)
     else Ok (np_std lib pitch_values, np_mean lib pitch_values, f0))
    (0, 0, []).

(** [extract_features(self, y, sr)]. *)
Definition extract_features (self : VoiceClassifier) (y : list float) (sr : Z)
  : result FeatureSet :=
  y_proc <- preemphasis y 0.97 ;;
  let '(pitch_std, pitch_mean, f0) := pitch_statistics y_proc sr in
  let jitter :=
    calculate_jitter y sr (if (0 <? List.length f0)%nat then f0 else []) in
  let shimmer := calculate_shimmer y sr in
  let hnr := calculate_hnr y sr in
  flat <- librosa_feature_spectral_flatness lib y ;;
  let flatness := np_mean lib (List.concat flat) in
  frames <- librosa_feature_rms lib y None None ;;
  rms <- Np.first frames ;;
  let silence_frames := Np.count_lt rms 0.01 in
  let total_frames := List.length rms in
  let silence_ratio :=
    if (0 <? total_frames)%nat
    then Np.of_nat silence_frames / Np.of_nat total_frames
    else 0 in
  Ok {| pitch_std := pitch_std;
        pitch_mean := pitch_mean;
        jitter := jitter;
        shimmer := shimmer;
        hnr := hnr;
        spectral_flatness := flatness;
        silence_ratio := silence_ratio |}.

(** [predict(self, y, sr)]. *)
Definition predict (self : VoiceClassifier) (y : list float) (sr : Z)
  : result (Label * float * string) :=
  features <- extract_features self y sr ;;
  Ok (predict_features self features).

End Extractor.

(* ================================================================== *)
(** ** Decoding ([utils.py]) and the endpoint's error mapping ([main.py]) *)

(** [base64] and pydub, with the segment type left abstract. *)
Record AudioBackend : Type := {
  AudioSegment : Type;
  (** [base64.b64decode(s)] *)
  b64decode : string -> result string;
  (** [AudioSegment.from_file(io.BytesIO(audio_bytes), format=..)] *)
  from_file : string -> string -> result AudioSegment;
  set_frame_rate : AudioSegment -> Z -> result AudioSegment;
  set_channels : AudioSegment -> Z -> result AudioSegment;
  get_array_of_samples : AudioSegment -> result (list Z);
  sample_width : AudioSegment -> Z
}.

(** [1 << k] on Python integers. *)
Definition py_lshift_one (k : Z) : result Z :=
  if (k <? 0)%Z then Raise (ValueError "negative shift count")
  else Ok (2 ^ k)%Z.

(** [samples.astype(np.float32) / d]. *)
Definition normalise (samples : list Z) (d : float) : list float :=
  map (fun s => Np.to_float32 (Np.astype_float32 s / d)) samples.

Definition too_short_message : string :=
  "Audio processing failed: Audio too short (min 0.5s required)".

(** [decode_audio(base64_string)]. *)
Definition decode_audio (io : AudioBackend) (base64_string : string)
  : result (list float * Z) :=
  try_except
    (audio_bytes <- b64decode io base64_string ;;
     audio_segment <- from_file io audio_bytes "mp3" ;;
     audio_segment <- set_frame_rate io audio_segment 22050%Z ;;
     audio_segment <- set_channels io audio_segment 1%Z ;;
     samples <- get_array_of_samples io audio_segment ;;
     data <-
       (if (sample_width io audio_segment =? 2)%Z
        then Ok (normalise samples 32768.0)
        else if (sample_width io audio_segment =? 4)%Z
        then Ok (normalise samples 2147483648.0)
        else
          n <- py_lshift_one (8 * sample_width io audio_segment - 1) ;;
          d <- Py.float_of_Z n ;;
          Ok (normalise samples d)) ;;
     if Py.int_lt_float (Z.of_nat (List.length data)) (22050 * 0.5)
     then Raise (ValueError too_short_message)
     else Ok (data, 22050%Z))
    (fun e => Raise (ValueError ("Failed to process audio: " ++ exn_str e))).

(** What [detect_voice] answers. *)
Inductive Response : Type :=
| Success (language : string) (classification : string)
          (confidenceScore : float) (explanation : string)
| Failure (status_code : Z) (message : string).

(** The body of [detect_voice], from the key check on.  Request validation
    and the rate limiter run before it: see [voice_detection_route]. *)
Definition detect_voice (lib : Externals) (io : AudioBackend)
    (API_KEY : string) (x_api_key : option string)
    (language audioBase64 : string) : Response :=
  if match x_api_key with
     | Some k => negb (String.eqb k API_KEY)
     | None => true
     end
  then Failure 401 "Invalid API key or malformed request"
  else
    match
      (r <- decode_audio io audioBase64 ;;
       let '(y, sr) := r in
       predict lib classifier y sr)
    with
    | Ok (classification, confidence, explanation) =>
        Success language (label_str classification) confidence explanation
    | Raise (ValueError m) => Failure 400 m
    | Raise (OtherError _) => Failure 500 "Processing failed"
    end.

(* ================================================================== *)
(** ** The specification's wording of the scoring engine (section 4.2) *)

Module Spec.

(** The table of signed contributions, one entry per rule. *)
Definition pitch_delta (f : FeatureSet) : float :=
  if PrimFloat.ltb (pitch_std f) 20.0 then 0.25 else -0.15.
Definition jitter_delta (f : FeatureSet) : float :=
  if PrimFloat.ltb (jitter f) 0.03 then 0.25 else -0.15.
Definition shimmer_delta (f : FeatureSet) : float :=
  if PrimFloat.ltb (shimmer f) 0.05 then 0.20 else -0.10.
Definition hnr_delta (f : FeatureSet) : float :=
  if PrimFloat.ltb 20.0 (hnr f) then 0.15
  else if PrimFloat.ltb (hnr f) 10.0 then 0.10
  else 0.
Definition flatness_delta (f : FeatureSet) : float :=
  if PrimFloat.ltb (spectral_flatness f) 0.01 then 0.10 else 0.
Definition silence_delta (f : FeatureSet) : float :=
  if PrimFloat.ltb (silence_ratio f) 0.02 then 0.05 else 0.

Definition deltas (f : FeatureSet) : list float :=
  [pitch_delta f; jitter_delta f; shimmer_delta f;
   hnr_delta f; flatness_delta f; silence_delta f].

(** The running score: start at 0, add the contributions in order. *)
Definition running_score (f : FeatureSet) : float :=
  fold_left PrimFloat.add (deltas f) 0.

Definition clamp (x lo hi : float) : float :=
  if PrimFloat.ltb x lo then lo
  else if PrimFloat.ltb hi x then hi
  else x.

Definition ai_probability (f : FeatureSet) : float :=
  clamp (0.5 + running_score f * 0.8) 0.01 0.99.

(** The notes of the rules that count towards [AI_GENERATED] (those with a
    positive score delta), in rule order. *)
Definition positive_notes (f : FeatureSet) : list string :=
  (if PrimFloat.ltb (pitch_std f) 20.0 then [note_monotone f] else [])
  ++ (if PrimFloat.ltb (jitter f) 0.03 then [note_jitter f] else [])
  ++ (if PrimFloat.ltb (shimmer f) 0.05 then [note_shimmer f] else [])
  ++ (if PrimFloat.ltb 20.0 (hnr f) then [note_clarity f]
      else if PrimFloat.ltb (hnr f) 10.0 then [note_noise f] else [])
  ++ (if PrimFloat.ltb (spectral_flatness f) 0.01 then [note_tonal] else [])
  ++ (if PrimFloat.ltb (silence_ratio f) 0.02 then [note_pauses] else []).

(** "The first three accumulated positive-indicator notes joined with
    [" | "], or a generic fallback string if none were accumulated." *)
Definition ai_explanation (f : FeatureSet) : string :=
  match positive_notes f with
  | [] => "Multiple synthetic audio patterns detected"
  | notes => Py.join " | " (firstn 3 notes)
  end.

(** A lag [i] is a peak of the autocorrelation when it lies within the first
    [sr / 50] lags, has both neighbours, and its sample is strictly greater
    than both. *)
Definition is_peak (autocorr : list float) (sr : Z) (i : nat) : bool :=
  (1 <=? i)%nat && (Z.of_nat i <? sr / 50)%Z
  && (i + 1 <? List.length autocorr)%nat
  && PrimFloat.ltb (nth (i - 1) autocorr nan) (nth i autocorr nan)
  && PrimFloat.ltb (nth (i + 1) autocorr nan) (nth i autocorr nan).

(** The HNR rule, with the number of samples averaged into the noise power
    as a parameter: [r] is the HNR of [autocorr] when either there is no
    peak and [r] is 10.0, or [p] is a maximum-valued peak, the noise power
    is the mean of the next [window] samples after it (of all the remaining
    ones when fewer remain), and [r] is the clipped ratio in decibels if the
    noise power is positive, else 10.0. *)
Definition hnr_rule (window : nat) (lib : Externals)
    (autocorr : list float) (sr : Z) (r : float) : Prop :=
  ((forall i, is_peak autocorr sr i = false) /\ r = 10.0)
  \/
  (exists p,
      is_peak autocorr sr p = true
      /\ (forall j, is_peak autocorr sr j = true ->
                    PrimFloat.leb (nth j autocorr nan) (nth p autocorr nan) = true)
      /\ let noise := np_mean lib (firstn window (skipn (p + 1) autocorr)) in
         r = if PrimFloat.ltb 0 noise
             then Np.clip (10 * np_log10 lib (nth p autocorr nan / noise)) 0 40
             else 10.0).

End Spec.

(* ================================================================== *)
(** ** Reference behaviour of the libraries on the inputs of the examples

    Executable instances of [Externals] and [AudioBackend], used only to
    evaluate the embedding at concrete inputs.  Each routine is the library's
    result on the inputs the examples use: sums of small integers are exact
    in any order of summation, the autocorrelation is the sum that defines
    it, a silent signal has zero energy and no voiced frame, and the
    logarithm is tabulated at powers of ten. *)

Module Reference.

Definition mean (a : list float) : float :=
  fold_left PrimFloat.add a 0 / Np.of_nat (List.length a).

Definition std (a : list float) : float :=
  let m := mean a in
  PrimFloat.sqrt (mean (map (fun x => (x - m) * (x - m)) a)).

Definition log10 (x : float) : float :=
  if PrimFloat.eqb x 1 then 0
  else if PrimFloat.eqb x 10 then 1
  else if PrimFloat.eqb x 100 then 2
  else if PrimFloat.eqb x 1000 then 3
  else if PrimFloat.eqb x 0 then neg_infinity
  else nan.

(** The autocorrelation as a direct sum: [r[k] = sum_n y[n] * y[n+k]]. *)
Definition autocorrelate (y : list float) : result (list float) :=
  Ok (map (fun k =>
             fold_left PrimFloat.add
               (map (fun '(a, b) => a * b) (combine y (skipn k y))) 0)
          (seq 0 (List.length y))).

(** Frame count of a centred short-time analysis with hop 512. *)
Definition n_frames (y : list float) : nat := 1 + List.length y / 512.

(** On a silent signal: zero energy in every frame. *)
Definition rms_silent (y : list float) (frame_length hop_length : option Z)
  : result (list (list float)) :=
  Ok [repeat 0 (n_frames y)].

(** On a silent signal every spectral bin is floored to the same value, so
    each frame is perfectly flat. *)
Definition spectral_flatness_silent (y : list float)
  : result (list (list float)) :=
  Ok [repeat 1 (n_frames y)].

Definition note_to_hz (note : string) : result float :=
  if String.eqb note "C2" then Ok 65.40639132514966
  else if String.eqb note "C7" then Ok 2093.004522404789
  else Raise (OtherError "Improper note format").

(** On a silent signal: every frame unvoiced, [f0] filled with NaN. *)
Definition pyin_silent (y : list float) (fmin fmax : float)
    (sr frame_length : Z) : result (list float * list bool * list float) :=
  Ok (repeat nan (n_frames y), repeat false (n_frames y),
      repeat 0 (n_frames y)).

(** The routines that do not depend on framing; the others are not part of
    this instance. *)
Definition unavailable {A : Type} : result A :=
  Raise (OtherError "not part of the reference").

Definition lib : Externals := {|
  np_mean := mean;
  np_std := std;
  np_log10 := log10;
  librosa_autocorrelate := autocorrelate;
  librosa_feature_rms := fun _ _ _ => unavailable;
  librosa_feature_spectral_flatness := fun _ => unavailable;
  librosa_note_to_hz := note_to_hz;
  librosa_pyin := fun _ _ _ _ _ => unavailable
|}.

(** The same, with the framing routines as they behave on silence. *)
Definition silent_lib : Externals := {|
  np_mean := mean;
  np_std := std;
  np_log10 := log10;
  librosa_autocorrelate := autocorrelate;
  librosa_feature_rms := rms_silent;
  librosa_feature_spectral_flatness := spectral_flatness_silent;
  librosa_note_to_hz := note_to_hz;
  librosa_pyin := pyin_silent
|}.

(** A decoder that yields [n] zero samples of 16 bits, whatever it is
    given: the segment is the list of its samples. *)
Definition zero_backend (n : Z) : AudioBackend := {|
  AudioSegment := list Z;
  b64decode := fun s => Ok s;
  from_file := fun _ _ => Ok (repeat 0%Z (Z.to_nat n));
  set_frame_rate := fun seg _ => Ok seg;
  set_channels := fun seg _ => Ok seg;
  get_array_of_samples := fun seg => Ok seg;
  sample_width := fun _ => 2%Z
|}.

End Reference.

(** *** Example inputs *)

(** Pitch varies, everything else reads as synthetic. *)
Definition varied_pitch_features : FeatureSet := {|
  pitch_std := 25; pitch_mean := 120; jitter := 0; shimmer := 0;
  hnr := 25; spectral_flatness := 0; silence_ratio := 0
|}.

(** Every rule reads as natural speech. *)
Definition natural_features : FeatureSet := {|
  pitch_std := 25; pitch_mean := 120; jitter := 0.5; shimmer := 0.5;
  hnr := 15; spectral_flatness := 1; silence_ratio := 1
|}.

(** Every rule reads as synthetic. *)
Definition synthetic_features : FeatureSet := {|
  pitch_std := 0; pitch_mean := 0; jitter := 0; shimmer := 0;
  hnr := 25; spectral_flatness := 0; silence_ratio := 0
|}.

(** Four impulses: samples 0 and 2 (values 4 and 5) and samples 100 and 152
    (value 1 each); silence elsewhere, 200 samples in all.  Its
    autocorrelation is 20 at lag 2 and 1 at lag 52, with nothing in
    between. *)
Definition impulse_signal : list float :=
  [4; 0; 5] ++ repeat 0 97 ++ [1] ++ repeat 0 51 ++ [1] ++ repeat 0 47.

(* ================================================================== *)
(** ** Reading a result, and the values a score can take *)

Definition label_of (r : Label * float * string) : Label := fst (fst r).
Definition confidence_of (r : Label * float * string) : float := snd (fst r).
Definition explanation_of (r : Label * float * string) : string := snd r.

(** The notes of the table of section 4.2 in rule order: the positive
    indicators, preceded by the "natural pitch variation" note of rule 1'
    when the pitch rule fails. *)
Definition table_notes (f : FeatureSet) : list string :=
  (if PrimFloat.ltb (pitch_std f) 20.0 then [] else [note_natural_pitch f])
  ++ Spec.positive_notes f.

(** Every sum of one contribution per rule, in rule order, from 0. *)
Definition reachable_scores : list float :=
  flat_map (fun d1 =>
  flat_map (fun d2 =>
  flat_map (fun d3 =>
  flat_map (fun d4 =>
  flat_map (fun d5 =>
  map (fun d6 => fold_left PrimFloat.add [d1; d2; d3; d4; d5; d6] 0)
    [0.05; 0])
    [0.10; 0])
    [0.15; 0.10; 0])
    [0.20; -0.10])
    [0.25; -0.15])
    [0.25; -0.15].

(** The probability and the confidence as functions of the score. *)
Definition probability_of_score (s : float) : float :=
  Py.max 0.01 (Py.min 0.99 (0.5 + (s * 0.8))).

Definition confidence_of_score (s : float) : float :=
  let p := probability_of_score s in
  if Py.gt p 0.5 then p else 1.0 - p.

(** The number of hundredths [round(x, 2)] settles on. *)
Definition hundredths (x : float) : Z :=
  match Prim2SF x with
  | S754_finite _ m e => Py.scaled_half_even m e 100
  | _ => 0%Z
  end.

(* ================================================================== *)
(** ** The order of binary64 values *)

(** A key that orders the values that are not NaN: sign class first, then
    exponent, then mantissa (both reversed for negative values); the two
    zeros share a key. *)
Definition sf_key (x : spec_float) : option (Z * Z * Z) :=
  match x with
  | S754_nan => None
  | S754_infinity true => Some (-2, 0, 0)%Z
  | S754_infinity false => Some (2, 0, 0)%Z
  | S754_zero _ => Some (0, 0, 0)%Z
  | S754_finite true m e => Some (-1, - e, Zneg m)%Z
  | S754_finite false m e => Some (1, e, Zpos m)%Z
  end.

Definition key (x : float) : option (Z * Z * Z) := sf_key (Prim2SF x).

Definition lex_lt (a b : Z * Z * Z) : Prop :=
  let '(a1, a2, a3) := a in
  let '(b1, b2, b3) := b in
  (a1 < b1 \/ (a1 = b1 /\ (a2 < b2 \/ (a2 = b2 /\ a3 < b3))))%Z.

Definition lex_le (a b : Z * Z * Z) : Prop :=
  let '(a1, a2, a3) := a in
  let '(b1, b2, b3) := b in
  (a1 < b1 \/ (a1 = b1 /\ (a2 < b2 \/ (a2 = b2 /\ a3 <= b3))))%Z.

(* ================================================================== *)
(** ** Further example inputs *)

(** An autocorrelation whose peaks at lags 2 and 4 share the value 2. *)
Definition tied_autocorr : list float := [5; 0; 2; 0; 2; 0].
Definition tied_first : nat * float := (2%nat, 2).
Definition tied_rest : list (nat * float) := [(4%nat, 2)].

(** A library in which pitch tracking and the autocorrelation fail, while
    the energy and the spectral flatness are those of
    [Reference.silent_lib]. *)
Definition failing_trackers_lib : Externals := {|
  np_mean := Reference.mean;
  np_std := Reference.std;
  np_log10 := Reference.log10;
  librosa_autocorrelate := fun _ => Raise (OtherError "autocorrelate failed");
  librosa_feature_rms := Reference.rms_silent;
  librosa_feature_spectral_flatness := Reference.spectral_flatness_silent;
  librosa_note_to_hz := Reference.note_to_hz;
  librosa_pyin := fun _ _ _ _ _ => Raise (ValueError "pyin failed")
|}.

(** The explanation of a clip that passes the pitch, jitter and shimmer
    tests with the values 0.0. *)
Definition three_notes : string :=
  "Monotone pitch pattern (std: 0.0Hz) | Perfect pitch timing (jitter: 0.000) | Uniform amplitude (shimmer: 0.000)".

(** Four samples of silence. *)
Definition short_silence : list float := [0; 0; 0; 0].

(** A value that is neither NaN nor an infinity. *)
Definition finite (x : float) : bool :=
  match Prim2SF x with
  | S754_zero _ | S754_finite _ _ _ => true
  | _ => false
  end.

(** A pitch track of three voiced frames at 100 Hz among unvoiced ones. *)
Definition steady_f0 : list float := [nan; 100; 100; 0; 100].

(** A library whose framed energy is 0.5 in each of four frames. *)
Definition constant_energy_lib : Externals := {|
  np_mean := Reference.mean;
  np_std := Reference.std;
  np_log10 := Reference.log10;
  librosa_autocorrelate := Reference.autocorrelate;
  librosa_feature_rms := fun _ _ _ => Ok [repeat 0.5 4];
  librosa_feature_spectral_flatness := Reference.spectral_flatness_silent;
  librosa_note_to_hz := Reference.note_to_hz;
  librosa_pyin := Reference.pyin_silent
|}.

(** A decoder given text that is not base64. *)
Definition corrupt_backend : AudioBackend := {|
  AudioSegment := list Z;
  b64decode := fun _ => Raise (OtherError "Incorrect padding");
  from_file := fun _ _ => Ok [];
  set_frame_rate := fun seg _ => Ok seg;
  set_channels := fun seg _ => Ok seg;
  get_array_of_samples := fun seg => Ok seg;
  sample_width := fun _ => 2%Z
|}.

(** The integers [lo], [lo + 1], ..., [n] of them. *)
Fixpoint z_range (lo : Z) (n : nat) : list Z :=
  match n with
  | O => []
  | S n' => lo :: z_range (lo + 1) n'
  end.

(** The outcome of the seven tests of [predict] on a feature set. *)
Record Tests : Type := {
  pitch_test : bool;
  jitter_test : bool;
  shimmer_test : bool;
  hnr_high_test : bool;
  hnr_low_test : bool;
  flatness_test : bool;
  silence_test : bool
}.

Definition tests_of (f : FeatureSet) : Tests := {|
  pitch_test := Py.lt (pitch_std f) (PITCH_STD_THRESHOLD classifier);
  jitter_test := Py.lt (jitter f) (JITTER_THRESHOLD classifier);
  shimmer_test := Py.lt (shimmer f) (SHIMMER_THRESHOLD classifier);
  hnr_high_test := Py.gt (hnr f) 20.0;
  hnr_low_test := Py.lt (hnr f) 10.0;
  flatness_test := Py.lt (spectral_flatness f) 0.01;
  silence_test := Py.lt (silence_ratio f) 0.02
|}.

(** The score of [predict] as its tests decide it, statement by
    statement. *)
Definition score_of_tests (t : Tests) : float :=
  let s := 0 in
  let s := if pitch_test t then s + 0.25 else s - 0.15 in
  let s := if jitter_test t then s + 0.25 else s - 0.15 in
  let s := if shimmer_test t then s + 0.2 else s - 0.1 in
  let s := if hnr_high_test t then s + 0.15
           else if hnr_low_test t then s + 0.1 else s in
  let s := if flatness_test t then s + 0.1 else s in
  if silence_test t then s + 0.05 else s.

(** How strongly the HNR rule counts: 2 for the high branch, 1 for the low
    branch, 0 when neither fires. *)
Definition hnr_rank (t : Tests) : nat :=
  if hnr_high_test t then 2 else if hnr_low_test t then 1 else 0.

(** [u] shows at least the evidence [t] shows: every test that passes in
    [t] passes in [u], and the HNR rule counts at least as much. *)
Definition at_least (t u : Tests) : bool :=
  implb (pitch_test t) (pitch_test u)
  && implb (jitter_test t) (jitter_test u)
  && implb (shimmer_test t) (shimmer_test u)
  && (hnr_rank t <=? hnr_rank u)%nat
  && implb (flatness_test t) (flatness_test u)
  && implb (silence_test t) (silence_test u).

Definition all_tests : list Tests :=
  flat_map (fun a => flat_map (fun b => flat_map (fun c =>
  flat_map (fun d => flat_map (fun e => flat_map (fun g =>
  map (fun h =>
         {| pitch_test := a; jitter_test := b; shimmer_test := c;
            hnr_high_test := d; hnr_low_test := e; flatness_test := g;
            silence_test := h |})
      [true; false])
    [true; false]) [true; false]) [true; false])
    [true; false]) [true; false]) [true; false].

(** The extreme and the middle values of a 16-bit sample. *)
Definition int16_corners : list Z := [-32768; 0; 32767]%Z.

(** An autocorrelation whose only peak, at lag 2, is negative while the
    samples after it average to a positive number; and a library that
    returns it. *)
Definition negative_peak_autocorr : list float := [0; -2; -1; -3; 7].

Definition negative_peak_lib : Externals := {|
  np_mean := Reference.mean;
  np_std := Reference.std;
  np_log10 := Reference.log10;
  librosa_autocorrelate := fun _ => Ok negative_peak_autocorr;
  librosa_feature_rms := Reference.rms_silent;
  librosa_feature_spectral_flatness := Reference.spectral_flatness_silent;
  librosa_note_to_hz := Reference.note_to_hz;
  librosa_pyin := Reference.pyin_silent
|}.

(* ================================================================== *)
(** ** The route [POST /api/voice-detection] ([config.py], [main.py]) *)

(** [config.py]: the two sets; the code only tests membership in them. *)
Definition SUPPORTED_LANGUAGES : list string :=
  ["Tamil"; "English"; "Hindi"; "Malayalam"; "Telugu"].

Definition SUPPORTED_FORMATS : list string := ["mp3"].

(** [x in s] on a set of strings. *)
Definition str_in (x : string) (s : list string) : bool :=
  existsb (String.eqb x) s.

(** [str.lower()]: the letters [A] to [Z] become [a] to [z].  Python lowers
    letters outside ASCII too; none of them becomes a character of [mp3],
    so membership in [SUPPORTED_FORMATS] is decided by this function. *)
Definition lower_char (c : ascii) : ascii :=
  let n := nat_of_ascii c in
  if ((65 <=? n) && (n <=? 90))%nat then ascii_of_nat (n + 32) else c.

Fixpoint str_lower (s : string) : string :=
  match s with
  | EmptyString => EmptyString
  | String c rest => String (lower_char c) (str_lower rest)
  end.

(** The validators of [VoiceDetectionRequest]; [None] is a raised
    [ValueError] (its message prints a set, in the interpreter's order of
    iteration). *)
Definition validate_language (v : string) : option string :=
  if negb (str_in v SUPPORTED_LANGUAGES) then None else Some v.

Definition validate_format (v : string) : option string :=
  if negb (str_in (str_lower v) SUPPORTED_FORMATS) then None
  else Some (str_lower v).

(** The request body, once validated. *)
Record VoiceDetectionRequest : Type := {
  language : string;
  audioFormat : string;
  audioBase64 : string
}.

(** The construction of a [VoiceDetectionRequest] from the three strings of
    the body: each field passes through its validator. *)
Definition parse_payload (language audioFormat audioBase64 : string)
  : option VoiceDetectionRequest :=
  match validate_language language, validate_format audioFormat with
  | Some l, Some f =>
      Some {| language := l; audioFormat := f; audioBase64 := audioBase64 |}
  | _, _ => None
  end.

(** [rate_limit_handler(request, exc)], given [exc.detail]. *)
Definition rate_limit_handler (detail : string) : Response :=
  Failure 429 ("Rate limit exceeded: " ++ detail).

(** What the route answers: the framework's own 422 to a body that is not a
    valid [VoiceDetectionRequest], or a response of this repository. *)
Inductive Answer : Type :=
| Unprocessable
| Answered (r : Response).

Definition status_code_of (a : Answer) : Z :=
  match a with
  | Unprocessable => 422
  | Answered (Failure status_code _) => status_code
  | Answered (Success _ _ _ _) => 200
  end.

(** The route as it is served: FastAPI validates the body before it calls
    the endpoint, the [limiter.limit] wrapper then checks the limit, and
    only then does the body of [detect_voice] run.  [exceeded] is the
    limiter's verdict on the request: [Some detail] when it raises
    [RateLimitExceeded], which [rate_limit_handler] answers. *)
Definition voice_detection_route (lib : Externals) (io : AudioBackend)
    (exceeded : option string) (API_KEY : string) (x_api_key : option string)
    (language audioFormat audioBase64 : string) : Answer :=
  match parse_payload language audioFormat audioBase64 with
  | None => Unprocessable
  | Some {| language := payload_language;
            audioBase64 := payload_audioBase64 |} =>
      match exceeded with
      | Some detail => Answered (rate_limit_handler detail)
      | None =>
          Answered (detect_voice lib io API_KEY x_api_key
                      payload_language payload_audioBase64)
      end
  end.

(** The spellings of the format that pass validation. *)
Definition accepted_formats : list string := ["mp3"; "mP3"; "Mp3"; "MP3"].

(* ================================================================== *)
(** ** Proof automation *)

(** Unfold the six rules at the thresholds of the global instance. *)
Ltac unfold_rules :=
  unfold run_rules, check_silence, check_flatness, check_hnr, check_shimmer,
    check_jitter, check_pitch, Py.lt, Py.gt;
  cbn [classifier VoiceClassifier_init PITCH_STD_THRESHOLD JITTER_THRESHOLD
       SHIMMER_THRESHOLD].

(** Split on the outcome of every test of the rules on [f]. *)
Ltac split_rules f :=
  destruct (PrimFloat.ltb (pitch_std f) 20.0) eqn:Hpitch;
  destruct (PrimFloat.ltb (jitter f) 0.03) eqn:Hjitter;
  destruct (PrimFloat.ltb (shimmer f) 0.05) eqn:Hshimmer;
  destruct (PrimFloat.ltb 20.0 (hnr f)) eqn:Hclear;
  destruct (PrimFloat.ltb (hnr f) 10.0) eqn:Hnoisy;
  destruct (PrimFloat.ltb (spectral_flatness f) 0.01) eqn:Htonal;
  destruct (PrimFloat.ltb (silence_ratio f) 0.02) eqn:Hsilence.

(** Prove [Forall P reachable_scores] by evaluating [P] at each score. *)
Ltac each_score :=
  repeat (constructor; [vm_compute; try reflexivity; auto |]);
  try constructor.

(** One case of the comparison of two keys. *)
Ltac order_case :=
  repeat split; intros ?Hcmp; try discriminate; try reflexivity; try lia;
  try (injection Hcmp; lia); try (f_equal; f_equal; lia).

(** Close the cases of a statement about the status: each side of each
    equivalence is read off the equations in the context. *)
Ltac status_cases :=
  repeat split; try discriminate; try tauto; eauto 8;
  intros;
  repeat match goal with
         | H : _ /\ _ |- _ => destruct H
         | H : _ \/ _ |- _ => destruct H
         | H : exists _, _ |- _ => destruct H
         | H : Ok (_, _) = Ok (_, _) |- _ => injection H as H; subst
         end;
  try congruence; eauto 8.

(* ================================================================== *)
(** * Properties *)

(** ** The scoring engine *)

Lemma score_running (f : FeatureSet) :
  score (run_rules classifier f) = Spec.running_score f.
Proof.
  unfold Spec.running_score, Spec.deltas, Spec.pitch_delta, Spec.jitter_delta,
    Spec.shimmer_delta, Spec.hnr_delta, Spec.flatness_delta, Spec.silence_delta.
  unfold_rules.
  split_rules f; reflexivity.
Qed.

Lemma running_score_reachable (f : FeatureSet) :
  In (Spec.running_score f) reachable_scores.
Proof.
  unfold Spec.running_score, Spec.deltas, reachable_scores.
  apply in_flat_map. exists (Spec.pitch_delta f). split.
  { unfold Spec.pitch_delta. destruct (PrimFloat.ltb _ _); simpl; auto. }
  apply in_flat_map. exists (Spec.jitter_delta f). split.
  { unfold Spec.jitter_delta. destruct (PrimFloat.ltb _ _); simpl; auto. }
  apply in_flat_map. exists (Spec.shimmer_delta f). split.
  { unfold Spec.shimmer_delta. destruct (PrimFloat.ltb _ _); simpl; auto. }
  apply in_flat_map. exists (Spec.hnr_delta f). split.
  { unfold Spec.hnr_delta.
    destruct (PrimFloat.ltb 20.0 _); [| destruct (PrimFloat.ltb _ 10.0)];
      simpl; auto. }
  apply in_flat_map. exists (Spec.flatness_delta f). split.
  { unfold Spec.flatness_delta. destruct (PrimFloat.ltb _ _); simpl; auto. }
  apply in_map_iff. exists (Spec.silence_delta f). split; [reflexivity |].
  unfold Spec.silence_delta. destruct (PrimFloat.ltb _ _); simpl; auto.
Qed.

Lemma score_reachable (f : FeatureSet) :
  In (score (run_rules classifier f)) reachable_scores.
Proof. rewrite score_running. apply running_score_reachable. Qed.

(** A property checked on each reachable score holds of the score of every
    feature set. *)
Lemma score_cases (P : float -> Prop) (f : FeatureSet) :
  Forall P reachable_scores -> P (score (run_rules classifier f)).
Proof.
  intros HP. rewrite Forall_forall in HP. apply HP, score_reachable.
Qed.

Lemma ai_probability_of_score (f : FeatureSet) :
  ai_probability classifier f
  = probability_of_score (score (run_rules classifier f)).
Proof. reflexivity. Qed.

Lemma decide_label (f : FeatureSet) :
  label_of (decide classifier f)
  = if PrimFloat.ltb 0.5 (ai_probability classifier f)
    then AI_GENERATED else HUMAN.
Proof.
  unfold decide, Py.gt.
  destruct (PrimFloat.ltb 0.5 (ai_probability classifier f)); reflexivity.
Qed.

Lemma decide_confidence (f : FeatureSet) :
  confidence_of (decide classifier f)
  = confidence_of_score (score (run_rules classifier f)).
Proof.
  unfold decide, confidence_of_score, Py.gt.
  rewrite <- ai_probability_of_score.
  destruct (PrimFloat.ltb 0.5 (ai_probability classifier f)); reflexivity.
Qed.

Lemma predict_features_decide (f : FeatureSet) :
  predict_features classifier f
  = (label_of (decide classifier f),
     Py.round (confidence_of (decide classifier f)) 2,
     explanation_of (decide classifier f)).
Proof.
  unfold predict_features.
  destruct (decide classifier f) as [[l c] e]. reflexivity.
Qed.

(** C1.  The running score of [predict] starts at 0 and adds, in the fixed
    order pitch, jitter, shimmer, HNR, spectral flatness, silence ratio, the
    signed contribution of each rule of the table, each chosen by its own
    test; the probability is that score scaled by 0.8, shifted by 0.5 and
    clamped to [0.01, 0.99]. *)
Theorem C1_score_and_probability (f : FeatureSet) :
  score (run_rules classifier f)
  = fold_left PrimFloat.add
      [Spec.pitch_delta f; Spec.jitter_delta f; Spec.shimmer_delta f;
       Spec.hnr_delta f; Spec.flatness_delta f; Spec.silence_delta f] 0
  /\ ai_probability classifier f = Spec.ai_probability f.
Proof.
  split.
  - apply score_running.
  - rewrite ai_probability_of_score.
    unfold Spec.ai_probability. rewrite <- score_running.
    apply (score_cases
             (fun s => probability_of_score s = Spec.clamp (0.5 + s * 0.8) 0.01 0.99)).
    each_score.
Qed.

Lemma predict_label (f : FeatureSet) :
  label_of (predict_features classifier f) = label_of (decide classifier f).
Proof. rewrite predict_features_decide. reflexivity. Qed.

Lemma predict_confidence (f : FeatureSet) :
  confidence_of (predict_features classifier f)
  = Py.round (confidence_of (decide classifier f)) 2.
Proof. rewrite predict_features_decide. reflexivity. Qed.

Lemma predict_explanation (f : FeatureSet) :
  explanation_of (predict_features classifier f)
  = explanation_of (decide classifier f).
Proof. rewrite predict_features_decide. reflexivity. Qed.

(** C2.  The label is [AI_GENERATED] exactly when the clamped probability
    is strictly greater than 0.5, and [HUMAN] otherwise. *)
Theorem C2_label_iff_probability (f : FeatureSet) :
  (label_of (predict_features classifier f) = AI_GENERATED
   <-> PrimFloat.ltb 0.5 (ai_probability classifier f) = true)
  /\ (label_of (predict_features classifier f) = HUMAN
      <-> PrimFloat.ltb 0.5 (ai_probability classifier f) = false).
Proof.
  rewrite predict_label, decide_label.
  destruct (PrimFloat.ltb 0.5 (ai_probability classifier f));
    repeat split; intros; congruence.
Qed.

Lemma confidence_by_label (f : FeatureSet) :
  confidence_of (decide classifier f)
  = match label_of (decide classifier f) with
    | AI_GENERATED => ai_probability classifier f
    | HUMAN => 1.0 - ai_probability classifier f
    end.
Proof.
  unfold decide, Py.gt.
  destruct (PrimFloat.ltb 0.5 (ai_probability classifier f)); reflexivity.
Qed.

(** C3.  The returned confidence lies in [0.01, 0.99]; it is the
    probability when the label is [AI_GENERATED] and one minus the
    probability when it is [HUMAN], rounded to two decimal places: a whole
    number of hundredths, read as the nearest float. *)
Theorem C3_confidence_reported (f : FeatureSet) :
  let r := predict_features classifier f in
  PrimFloat.leb 0.01 (confidence_of r) = true
  /\ PrimFloat.leb (confidence_of r) 0.99 = true
  /\ confidence_of r
     = Py.round (match label_of r with
                 | AI_GENERATED => ai_probability classifier f
                 | HUMAN => 1.0 - ai_probability classifier f
                 end) 2
  /\ (let k := hundredths (confidence_of (decide classifier f)) in
      (1 <= k <= 99)%Z
      /\ confidence_of r = PrimFloat.of_uint63 (Uint63.of_Z k) / 100).
Proof.
  intros r. subst r.
  rewrite predict_label, predict_confidence, <- confidence_by_label.
  rewrite decide_confidence.
  apply (score_cases
           (fun s =>
              PrimFloat.leb 0.01 (Py.round (confidence_of_score s) 2) = true
              /\ PrimFloat.leb (Py.round (confidence_of_score s) 2) 0.99 = true
              /\ Py.round (confidence_of_score s) 2
                 = Py.round (confidence_of_score s) 2
              /\ (let k := hundredths (confidence_of_score s) in
                  (1 <= k <= 99)%Z
                  /\ Py.round (confidence_of_score s) 2
                     = PrimFloat.of_uint63 (Uint63.of_Z k) / 100))).
  repeat (constructor;
          [vm_compute; repeat split; try reflexivity; discriminate |]).
  constructor.
Qed.

(** C9.  Before rounding, the confidence is at least 0.5 and at most 0.99:
    it is the probability, which exceeds 0.5, under [AI_GENERATED], and one
    minus a probability of at most 0.5 under [HUMAN]. *)
Theorem C9_confidence_at_least_half (f : FeatureSet) :
  let r := decide classifier f in
  PrimFloat.leb 0.5 (confidence_of r) = true
  /\ PrimFloat.leb (confidence_of r) 0.99 = true
  /\ match label_of r with
     | AI_GENERATED =>
         confidence_of r = ai_probability classifier f
         /\ PrimFloat.ltb 0.5 (ai_probability classifier f) = true
     | HUMAN =>
         confidence_of r = 1.0 - ai_probability classifier f
         /\ PrimFloat.leb (ai_probability classifier f) 0.5 = true
     end.
Proof.
  intros r. subst r.
  rewrite confidence_by_label, decide_label, ai_probability_of_score.
  apply (score_cases
           (fun s =>
              let p := probability_of_score s in
              let l := if PrimFloat.ltb 0.5 p then AI_GENERATED else HUMAN in
              let c := match l with AI_GENERATED => p | HUMAN => 1.0 - p end in
              PrimFloat.leb 0.5 c = true
              /\ PrimFloat.leb c 0.99 = true
              /\ match l with
                 | AI_GENERATED => c = p /\ PrimFloat.ltb 0.5 p = true
                 | HUMAN => c = 1.0 - p /\ PrimFloat.leb p 0.5 = true
                 end)).
  each_score.
Qed.

(** C10 (as amended).  The score lies between -0.4 and 1.0, both attained;
    the probability before clamping lies between 0.17999999999999994 (the
    binary64 value of [0.5 + (-0.4) * 0.8], one rounding below 0.18) and
    1.3; the probability returned is never the lower clamp bound 0.01. *)
Theorem C10_score_range (f : FeatureSet) :
  let s := score (run_rules classifier f) in
  (PrimFloat.leb (-0.4) s = true /\ PrimFloat.leb s 1.0 = true)
  /\ (PrimFloat.leb 0.17999999999999994 (raw_probability (run_rules classifier f)) = true
      /\ PrimFloat.leb (raw_probability (run_rules classifier f)) 1.3 = true)
  /\ PrimFloat.ltb 0.01 (ai_probability classifier f) = true
  /\ score (run_rules classifier natural_features) = -0.4
  /\ score (run_rules classifier synthetic_features) = 1.0.
Proof.
  intros s. subst s. rewrite ai_probability_of_score. unfold raw_probability.
  split; [| split; [| split; [| split; reflexivity]]];
    revert f;
    intros f.
  - apply (score_cases
             (fun s => PrimFloat.leb (-0.4) s = true /\ PrimFloat.leb s 1.0 = true)).
    each_score.
  - apply (score_cases
             (fun s => PrimFloat.leb 0.17999999999999994 (0.5 + s * 0.8) = true
                       /\ PrimFloat.leb (0.5 + s * 0.8) 1.3 = true)).
    each_score.
  - apply (score_cases
             (fun s => PrimFloat.ltb 0.01 (probability_of_score s) = true)).
    each_score.
Qed.

(** C10 as stated fails at its lower bound: when every rule reads as natural
    speech the probability before clamping is 0.17999999999999994, which is
    below 0.18. *)
Lemma C10_below_0_18 :
  raw_probability (run_rules classifier natural_features) = 0.17999999999999994
  /\ PrimFloat.ltb (raw_probability (run_rules classifier natural_features)) 0.18
     = true
  /\ PrimFloat.leb 0.18 (raw_probability (run_rules classifier natural_features))
     = false.
Proof. repeat split; reflexivity. Qed.

(** *** Explanations *)

Lemma explanations_table (f : FeatureSet) :
  explanations (run_rules classifier f) = table_notes f.
Proof.
  unfold table_notes, Spec.positive_notes. unfold_rules.
  split_rules f; reflexivity.
Qed.

Lemma table_notes_nonempty (f : FeatureSet) :
  exists n rest, table_notes f = n :: rest.
Proof.
  unfold table_notes, Spec.positive_notes.
  destruct (PrimFloat.ltb (pitch_std f) 20.0); cbn [app]; eauto.
Qed.

Lemma explanation_when_ai (f : FeatureSet) :
  label_of (decide classifier f) = AI_GENERATED ->
  explanation_of (decide classifier f)
  = Py.join " | " (firstn 3 (table_notes f)).
Proof.
  unfold decide, Py.gt.
  destruct (PrimFloat.ltb 0.5 (ai_probability classifier f)).
  - intros _. unfold explanation_of. cbn [snd].
    rewrite explanations_table.
    destruct (table_notes_nonempty f) as (n & rest & ->).
    reflexivity.
  - discriminate.
Qed.

(** C5 (as amended).  When the label is [AI_GENERATED], the explanation is
    the first three accumulated notes joined with [" | "], where the
    accumulated notes are the positive-indicator notes preceded, when
    [pitch_std] is not below 20.0, by the "Natural pitch variation" note;
    the list is never empty, so the fallback string is never returned. *)
Theorem C5_ai_explanation (f : FeatureSet) :
  label_of (predict_features classifier f) = AI_GENERATED ->
  explanations (run_rules classifier f)
  = (if PrimFloat.ltb (pitch_std f) 20.0 then [] else [note_natural_pitch f])
    ++ Spec.positive_notes f
  /\ explanations (run_rules classifier f) <> []
  /\ explanation_of (predict_features classifier f)
     = Py.join " | " (firstn 3 (explanations (run_rules classifier f))).
Proof.
  rewrite predict_label, predict_explanation. intros Hai.
  rewrite explanations_table. split; [reflexivity |]. split.
  - destruct (table_notes_nonempty f) as (n & rest & ->). discriminate.
  - apply explanation_when_ai, Hai.
Qed.

Lemma C5_ai_explanation_witness :
  label_of (predict_features classifier varied_pitch_features) = AI_GENERATED
  /\ explanation_of (predict_features classifier varied_pitch_features)
     = "Natural pitch variation (std: 25.0Hz) | Perfect pitch timing (jitter: 0.000) | Uniform amplitude (shimmer: 0.000)"%string.
Proof.
  split; [reflexivity |].
  destruct (C5_ai_explanation varied_pitch_features) as (_ & _ & ->);
    reflexivity.
Defined.

(** C5 as stated fails when the pitch rule fails and the result is still
    [AI_GENERATED]: the explanation then opens with the "Natural pitch
    variation" note, which is no positive indicator, and the third positive
    indicator is left out. *)
Lemma C5_natural_note_in_ai_explanation :
  label_of (predict_features classifier varied_pitch_features) = AI_GENERATED
  /\ explanation_of (predict_features classifier varied_pitch_features)
     = "Natural pitch variation (std: 25.0Hz) | Perfect pitch timing (jitter: 0.000) | Uniform amplitude (shimmer: 0.000)"%string
  /\ Spec.ai_explanation varied_pitch_features
     = "Perfect pitch timing (jitter: 0.000) | Uniform amplitude (shimmer: 0.000) | Synthetic clarity (HNR: 25.0dB)"%string
  /\ explanation_of (predict_features classifier varied_pitch_features)
     <> Spec.ai_explanation varied_pitch_features.
Proof.
  repeat split; try reflexivity.
  vm_compute. discriminate.
Qed.

Lemma join_nonempty (sep n : string) (rest : list string) :
  n <> ""%string -> Py.join sep (n :: rest) <> ""%string.
Proof.
  intros Hn. destruct n as [| c n]; [congruence |].
  destruct rest; cbn; discriminate.
Qed.

Lemma table_notes_head_nonempty (f : FeatureSet) (n : string) (rest : list string) :
  table_notes f = n :: rest -> n <> ""%string.
Proof.
  unfold table_notes, Spec.positive_notes.
  destruct (PrimFloat.ltb (pitch_std f) 20.0); cbn [app];
    intros H; injection H as <- _; discriminate.
Qed.

(** C8.  The explanation is a non-empty string, whichever the label. *)
Theorem C8_explanation_nonempty (f : FeatureSet) :
  explanation_of (predict_features classifier f) <> ""%string.
Proof.
  rewrite predict_explanation.
  destruct (label_of (decide classifier f)) eqn:Hlabel.
  - rewrite (explanation_when_ai f Hlabel).
    destruct (table_notes_nonempty f) as (n & rest & Hnotes).
    rewrite Hnotes. cbn [firstn].
    apply join_nonempty, (table_notes_head_nonempty f n rest Hnotes).
  - revert Hlabel. unfold decide, Py.gt.
    destruct (PrimFloat.ltb 0.5 (ai_probability classifier f));
      [discriminate |].
    intros _. unfold explanation_of. cbn [snd].
    destruct (human_traits classifier f); discriminate.
Qed.

(** ** The order of binary64 values *)

Lemma SFcompare_key (x y : spec_float) (kx ky : Z * Z * Z) :
  sf_key x = Some kx -> sf_key y = Some ky ->
  (SFcompare x y = Some Lt <-> lex_lt kx ky)
  /\ (SFcompare x y = Some Eq <-> kx = ky)
  /\ (SFcompare x y = Some Gt <-> lex_lt ky kx).
Proof.
  destruct x as [sx | sx | | sx mx ex], y as [sy | sy | | sy my ey];
    try destruct sx; try destruct sy; cbn [sf_key]; try discriminate;
    intros Hx Hy; injection Hx as <-; injection Hy as <-;
    cbn [SFcompare lex_lt]; try (order_case; fail).
  - rewrite Pos.compare_cont_spec. cbn [Pos.switch_Eq].
    destruct (Z.compare_spec ex ey); destruct (Pos.compare_spec mx my);
      cbn [CompOpp]; order_case.
  - rewrite Pos.compare_cont_spec. cbn [Pos.switch_Eq].
    destruct (Z.compare_spec ex ey); destruct (Pos.compare_spec mx my);
      order_case.
Qed.

Lemma sf_key_none (x : spec_float) : sf_key x = None -> x = S754_nan.
Proof. destruct x as [s | s | | s m e]; try destruct s; discriminate || reflexivity. Qed.

Lemma SFcompare_nan_r (x : spec_float) : SFcompare x S754_nan = None.
Proof. destruct x; reflexivity. Qed.

Lemma ltb_key (a b : float) :
  PrimFloat.ltb a b = true
  <-> match key a, key b with
      | Some ka, Some kb => lex_lt ka kb
      | _, _ => False
      end.
Proof.
  rewrite ltb_spec. unfold SFltb, key.
  destruct (sf_key (Prim2SF a)) as [ka |] eqn:Ha;
    [destruct (sf_key (Prim2SF b)) as [kb |] eqn:Hb |].
  - destruct (SFcompare_key _ _ _ _ Ha Hb) as (Hlt & Heq & Hgt).
    destruct (SFcompare (Prim2SF a) (Prim2SF b)) as [[| |] |];
      split; intros H; try discriminate; try reflexivity;
      try (apply Hlt; reflexivity); try (apply Hlt in H; discriminate).
  - rewrite (sf_key_none _ Hb), SFcompare_nan_r. split; [discriminate | tauto].
  - rewrite (sf_key_none _ Ha). cbn. split; [discriminate | tauto].
Qed.

Lemma lex_le_lt_eq (ka kb : Z * Z * Z) :
  lex_le ka kb <-> lex_lt ka kb \/ ka = kb.
Proof.
  destruct ka as [[a1 a2] a3], kb as [[b1 b2] b3]. cbn.
  split.
  - intros H.
    destruct (Z.eq_dec a1 b1), (Z.eq_dec a2 b2), (Z.eq_dec a3 b3);
      subst; auto; left; lia.
  - intros [H | H]; [lia | injection H; lia].
Qed.

Lemma leb_key (a b : float) :
  PrimFloat.leb a b = true
  <-> match key a, key b with
      | Some ka, Some kb => lex_le ka kb
      | _, _ => False
      end.
Proof.
  rewrite leb_spec. unfold SFleb, key.
  destruct (sf_key (Prim2SF a)) as [ka |] eqn:Ha;
    [destruct (sf_key (Prim2SF b)) as [kb |] eqn:Hb |].
  - rewrite lex_le_lt_eq.
    destruct (SFcompare_key _ _ _ _ Ha Hb) as (Hlt & Heq & Hgt).
    destruct (SFcompare (Prim2SF a) (Prim2SF b)) as [[| |] |];
      split; intros H; try reflexivity.
    + right. apply Heq. reflexivity.
    + left. apply Hlt. reflexivity.
    + discriminate.
    + destruct H as [H | H]; [apply Hlt in H | apply Heq in H]; discriminate.
    + discriminate.
    + destruct H as [H | H]; [apply Hlt in H | apply Heq in H]; discriminate.
  - rewrite (sf_key_none _ Hb), SFcompare_nan_r. split; [discriminate | tauto].
  - rewrite (sf_key_none _ Ha). cbn. split; [discriminate | tauto].
Qed.

Lemma ltb_irrefl (a : float) : PrimFloat.ltb a a = false.
Proof.
  destruct (PrimFloat.ltb a a) eqn:H; [| reflexivity].
  apply ltb_key in H. destruct (key a) as [[[a1 a2] a3] |]; cbn in H; [lia | tauto].
Qed.

Lemma ltb_trans (a b c : float) :
  PrimFloat.ltb a b = true -> PrimFloat.ltb b c = true ->
  PrimFloat.ltb a c = true.
Proof.
  rewrite !ltb_key.
  destruct (key a) as [[[a1 a2] a3] |], (key b) as [[[b1 b2] b3] |],
    (key c) as [[[c1 c2] c3] |]; cbn; try tauto; lia.
Qed.

Lemma ltb_number (a b : float) :
  PrimFloat.ltb a b = true -> key a <> None /\ key b <> None.
Proof.
  rewrite ltb_key. destruct (key a), (key b); try tauto.
  intros _. split; discriminate.
Qed.

(** On values that are not NaN, "not below" is "at least". *)
Lemma not_ltb_leb (a b : float) :
  key a <> None -> key b <> None ->
  PrimFloat.ltb a b = false -> PrimFloat.leb b a = true.
Proof.
  intros Ha Hb Hab. apply leb_key.
  assert (Hn : ~ match key a, key b with
                 | Some ka, Some kb => lex_lt ka kb
                 | _, _ => False
                 end)
    by (rewrite <- ltb_key, Hab; discriminate).
  destruct (key a) as [[[a1 a2] a3] |], (key b) as [[[b1 b2] b3] |];
    cbn in *; try congruence; lia.
Qed.

Lemma leb_trans (a b c : float) :
  PrimFloat.leb a b = true -> PrimFloat.leb b c = true ->
  PrimFloat.leb a c = true.
Proof.
  rewrite !leb_key.
  destruct (key a) as [[[a1 a2] a3] |], (key b) as [[[b1 b2] b3] |],
    (key c) as [[[c1 c2] c3] |]; cbn; try tauto; lia.
Qed.

Lemma ltb_leb (a b : float) :
  PrimFloat.ltb a b = true -> PrimFloat.leb a b = true.
Proof.
  rewrite ltb_key, leb_key.
  destruct (key a) as [[[a1 a2] a3] |], (key b) as [[[b1 b2] b3] |];
    cbn; try tauto; lia.
Qed.

Lemma leb_refl (a : float) : key a <> None -> PrimFloat.leb a a = true.
Proof.
  intros Ha. apply leb_key.
  destruct (key a) as [[[a1 a2] a3] |]; cbn; [lia | congruence].
Qed.

(** ** The harmonic-to-noise ratio *)

Section Hnr.

Variable lib : Externals.

Lemma fold_peaks (a : list float) (l : list nat) (acc : list (nat * float)) :
  fold_left
    (fun peaks i =>
       if ((0 <? Z.of_nat i) && (Z.of_nat i <? Z.of_nat (List.length a) - 1))%Z
       then if is_local_max a i
            then peaks ++ [(i, nth i a nan)]
            else peaks
       else peaks) l acc
  = acc ++ map (fun i => (i, nth i a nan))
             (filter (fun i =>
                        ((0 <? Z.of_nat i)
                         && (Z.of_nat i <? Z.of_nat (List.length a) - 1))%Z
                        && is_local_max a i) l).
Proof.
  revert acc. induction l as [| i l IH]; intros acc; cbn [fold_left filter].
  - cbn. now rewrite app_nil_r.
  - rewrite IH.
    destruct ((0 <? Z.of_nat i) && (Z.of_nat i <? Z.of_nat (List.length a) - 1))%Z;
      [destruct (is_local_max a i) |]; cbn [andb map]; trivial.
    now rewrite <- app_assoc.
Qed.

(** Within the range of the loop, the test of the loop body is the
    specification's notion of a peak; outside it there is no peak. *)
Lemma loop_test_is_peak (a : list float) (sr : Z) (i : nat) :
  In i (range_from_1 (Z.min (Z.of_nat (List.length a)) (sr / 50))) ->
  ((0 <? Z.of_nat i) && (Z.of_nat i <? Z.of_nat (List.length a) - 1))%Z
  && is_local_max a i
  = Spec.is_peak a sr i.
Proof.
  unfold range_from_1. rewrite in_seq. intros [Hlo Hhi].
  unfold Spec.is_peak, is_local_max, Py.gt.
  assert (H1 : (0 <? Z.of_nat i)%Z = true) by (apply Z.ltb_lt; lia).
  assert (H2 : (1 <=? i)%nat = true) by (apply Nat.leb_le; lia).
  assert (H3 : (Z.of_nat i <? sr / 50)%Z = true) by (apply Z.ltb_lt; lia).
  rewrite H1, H2, H3. cbn [andb].
  destruct (i + 1 <? List.length a)%nat eqn:H4.
  - apply Nat.ltb_lt in H4.
    assert (H5 : (Z.of_nat i <? Z.of_nat (List.length a) - 1)%Z = true)
      by (apply Z.ltb_lt; lia).
    rewrite H5. reflexivity.
  - apply Nat.ltb_ge in H4.
    assert (H5 : (Z.of_nat i <? Z.of_nat (List.length a) - 1)%Z = false)
      by (apply Z.ltb_ge; lia).
    rewrite H5. reflexivity.
Qed.

Lemma is_peak_in_range (a : list float) (sr : Z) (i : nat) :
  Spec.is_peak a sr i = true ->
  In i (range_from_1 (Z.min (Z.of_nat (List.length a)) (sr / 50))).
Proof.
  unfold Spec.is_peak, range_from_1. rewrite !andb_true_iff.
  intros ((((H1 & H2) & H3) & _) & _).
  apply Nat.leb_le in H1. apply Z.ltb_lt in H2. apply Nat.ltb_lt in H3.
  apply in_seq. lia.
Qed.

Lemma in_find_peaks (a : list float) (sr : Z) (i : nat) (v : float) :
  In (i, v) (find_peaks a sr)
  <-> Spec.is_peak a sr i = true /\ v = nth i a nan.
Proof.
  unfold find_peaks. rewrite fold_peaks. cbn [app].
  rewrite in_map_iff. split.
  - intros (j & Hj & Hin). injection Hj as -> <-.
    apply filter_In in Hin. destruct Hin as [Hin Htest].
    rewrite (loop_test_is_peak a sr i Hin) in Htest. auto.
  - intros [Hpeak ->]. exists i. split; [reflexivity |].
    apply filter_In. pose proof (is_peak_in_range a sr i Hpeak) as Hin.
    split; [exact Hin |]. now rewrite (loop_test_is_peak a sr i Hin).
Qed.

(** On a list without NaN, [max] returns an item that is at least every
    item. *)
Lemma max_by_value_spec (ps : list (nat * float)) (p : nat * float) :
  (forall x, In x (p :: ps) -> key (snd x) <> None) ->
  In (max_by_value p ps) (p :: ps)
  /\ forall x, In x (p :: ps) ->
               PrimFloat.leb (snd x) (snd (max_by_value p ps)) = true.
Proof.
  unfold max_by_value, Py.gt.
  revert p. induction ps as [| q ps IH]; intros p Hnum; cbn [fold_left].
  - split; [now left |]. intros x [<- | []].
    apply leb_refl, Hnum. now left.
  - assert (Hp : key (snd p) <> None) by (apply Hnum; now left).
    assert (Hq : key (snd q) <> None) by (apply Hnum; right; now left).
    destruct (PrimFloat.ltb (snd p) (snd q)) eqn:Hpq.
    + destruct (IH q) as [Hin Hmax].
      { intros x Hx. apply Hnum. now right. }
      split; [now right |].
      intros x [<- | Hx]; [| now apply Hmax].
      apply (leb_trans _ (snd q)); [now apply ltb_leb |].
      apply Hmax. now left.
    + destruct (IH p) as [Hin Hmax].
      { intros x [<- | Hx]; apply Hnum; [now left | right; now right]. }
      split.
      * destruct Hin as [<- | Hin]; [now left | right; now right].
      * intros x [<- | [<- | Hx]].
        -- apply Hmax. now left.
        -- apply (leb_trans _ (snd p)); [now apply not_ltb_leb |].
           apply Hmax. now left.
        -- apply Hmax. now right.
Qed.

Lemma peak_is_number (a : list float) (sr : Z) (i : nat) :
  Spec.is_peak a sr i = true -> key (nth i a nan) <> None.
Proof.
  unfold Spec.is_peak. rewrite !andb_true_iff.
  intros (_ & H). now apply ltb_number in H.
Qed.

(** What the source averages is the next 49 samples, or all that remain. *)
Lemma noise_window_49 (a : list float) (p : nat) :
  noise_window a p = firstn 49 (skipn (p + 1) a).
Proof.
  unfold noise_window, Py.slice, Py.slice_from.
  destruct (p + 50 <? List.length a)%nat eqn:H.
  - f_equal. lia.
  - apply Nat.ltb_ge in H. symmetry. apply firstn_all2.
    rewrite length_skipn. lia.
Qed.

Lemma hnr_of_autocorr_rule (a : list float) (sr : Z) :
  Spec.hnr_rule 49 lib a sr (hnr_of_autocorr lib a sr).
Proof.
  unfold hnr_of_autocorr, Spec.hnr_rule.
  destruct (find_peaks a sr) as [| q qs] eqn:Hpeaks.
  - left. split; [| reflexivity]. intros i.
    destruct (Spec.is_peak a sr i) eqn:Hi; [| reflexivity].
    assert (Hin : In (i, nth i a nan) (find_peaks a sr))
      by (apply in_find_peaks; auto).
    rewrite Hpeaks in Hin. destruct Hin.
  - right.
    assert (Hall : forall x, In x (q :: qs) ->
                             Spec.is_peak a sr (fst x) = true
                             /\ snd x = nth (fst x) a nan).
    { intros [i v] Hx. rewrite <- Hpeaks in Hx. now apply in_find_peaks in Hx. }
    destruct (max_by_value_spec qs q) as [Hin Hmax].
    { intros x Hx. destruct (Hall x Hx) as [Hpk ->].
      exact (peak_is_number a sr _ Hpk). }
    destruct (max_by_value q qs) as [peak_idx peak_val] eqn:Hbest.
    destruct (Hall _ Hin) as [Hpk Hval]. cbn [fst snd] in Hpk, Hval.
    exists peak_idx. split; [exact Hpk |]. split.
    + intros j Hj.
      assert (Hjin : In (j, nth j a nan) (q :: qs))
        by (rewrite <- Hpeaks; apply in_find_peaks; auto).
      specialize (Hmax _ Hjin). cbn [snd] in Hmax. now rewrite <- Hval.
    + cbn zeta. rewrite noise_window_49, <- Hval. reflexivity.
Qed.

End Hnr.

(** C4 (as amended).  [calculate_hnr] looks for local maxima of the
    autocorrelation (a sample strictly greater than both neighbours) within
    the first [sr / 50] lags; without one it returns 10.0; otherwise it takes
    a maximum-valued peak as signal power and the mean of the next 49 samples
    after it (all remaining samples when fewer than 50 remain) as noise
    power, and returns [10 * log10(peak / noise)] clipped to [0, 40] when the
    noise power is positive, else 10.0; an exception yields 10.0. *)
Theorem C4_hnr_rule (lib : Externals) (y : list float) (sr : Z) :
  match librosa_autocorrelate lib y with
  | Ok autocorr => Spec.hnr_rule 49 lib autocorr sr (calculate_hnr lib y sr)
  | Raise _ => calculate_hnr lib y sr = 10.0
  end.
Proof.
  unfold calculate_hnr.
  destruct (librosa_autocorrelate lib y) as [autocorr | e]; cbn.
  - apply hnr_of_autocorr_rule.
  - reflexivity.
Qed.

Lemma is_peak_below_length (a : list float) (sr : Z) (i : nat) :
  Spec.is_peak a sr i = true -> In i (seq 0 (List.length a)).
Proof.
  unfold Spec.is_peak. rewrite !andb_true_iff.
  intros (((_ & H) & _) & _). apply Nat.ltb_lt in H. apply in_seq. lia.
Qed.

(** A property of the peaks of [a] can be checked lag by lag. *)
Lemma peaks_checked (a : list float) (sr : Z) (check : nat -> bool) :
  forallb (fun i => implb (Spec.is_peak a sr i) (check i))
          (seq 0 (List.length a)) = true ->
  forall i, Spec.is_peak a sr i = true -> check i = true.
Proof.
  intros Hall i Hi. rewrite forallb_forall in Hall.
  specialize (Hall i (is_peak_below_length a sr i Hi)).
  now rewrite Hi in Hall.
Qed.

(** C4 as stated fails on the number of samples averaged: the slice
    [autocorr[peak_idx+1 : peak_idx+50]] holds 49 of them.  On the impulse
    signal the peak is at lag 2; lags 3 to 51 are zero, so the source finds
    no positive noise power and returns 10.0, whereas the mean of the next
    50 samples (lag 52 included) is 0.02 and the stated rule gives
    [10 * log10(20 / 0.02)] = 30.0. *)
Lemma C4_fifty_samples_fails :
  calculate_hnr Reference.lib impulse_signal 22050 = 10.0
  /\ match librosa_autocorrelate Reference.lib impulse_signal with
     | Ok autocorr =>
         find_peaks autocorr 22050
         = [(2%nat, 20); (52%nat, 1); (98%nat, 5); (100%nat, 4);
            (150%nat, 5); (152%nat, 4)]
         /\ List.length (noise_window autocorr 2) = 49%nat
         /\ Spec.hnr_rule 50 Reference.lib autocorr 22050 30.0
         /\ ~ Spec.hnr_rule 50 Reference.lib autocorr 22050
                (calculate_hnr Reference.lib impulse_signal 22050)
     | Raise _ => False
     end.
Proof.
  split; [vm_compute; reflexivity |].
  remember (librosa_autocorrelate Reference.lib impulse_signal) as r eqn:Hr.
  vm_compute in Hr. subst r.
  match goal with |- context [find_peaks ?l _] => set (a := l) end.
  assert (Hmaxpeak :
            forall i, Spec.is_peak a 22050 i = true ->
                      PrimFloat.leb (nth i a nan) 20 = true).
  { apply (peaks_checked a 22050 (fun i => PrimFloat.leb (nth i a nan) 20)).
    vm_compute. reflexivity. }
  assert (Honly :
            forall i, Spec.is_peak a 22050 i = true ->
                      PrimFloat.leb 20 (nth i a nan) = true -> i = 2%nat).
  { intros i Hi Hle. apply Nat.eqb_eq.
    apply (peaks_checked a 22050
             (fun i => implb (PrimFloat.leb 20 (nth i a nan)) (i =? 2)%nat))
      in Hi; [| vm_compute; reflexivity].
    cbn beta in Hi. now rewrite Hle in Hi. }
  split; [vm_compute; reflexivity |].
  split; [vm_compute; reflexivity |].
  split.
  - right. exists 2%nat. split; [vm_compute; reflexivity |].
    split; [exact Hmaxpeak |]. vm_compute. reflexivity.
  - intros [[Hnone _] | (p & Hp & Hmax & Hval)].
    + specialize (Hnone 2%nat). vm_compute in Hnone. discriminate.
    + assert (Hp2 : p = 2%nat).
      { apply Honly; [exact Hp |]. apply (Hmax 2%nat). vm_compute. reflexivity. }
      subst p. vm_compute in Hval. discriminate.
Qed.

(** ** The minimum-duration check of [decode_audio] *)

(** [22050 * 0.5] is the float 11025.0, and an integer is below it exactly
    when it is below 11025. *)
Lemma min_length_test (n : Z) :
  Py.int_lt_float n (22050 * 0.5) = (n <? 11025)%Z.
Proof.
  unfold Py.int_lt_float.
  replace (Prim2SF (22050 * 0.5))
    with (S754_finite false 6061057848115200 (-39)) by (vm_compute; reflexivity).
  cbn match. cbn [Z.leb Z.compare Z.opp].
  change 6061057848115200%Z with (11025 * 2 ^ 39)%Z.
  destruct (Z.ltb_spec n 11025); [apply Z.ltb_lt | apply Z.ltb_ge]; nia.
Qed.

Lemma length_normalise (samples : list Z) (d : float) :
  List.length (normalise samples d) = List.length samples.
Proof. apply length_map. Qed.

Section Decode.

Variable io : AudioBackend.
Variable base64_string audio_bytes : string.
Variable loaded resampled mono : AudioSegment io.
Variable samples : list Z.

Hypothesis Hb64 : b64decode io base64_string = Ok audio_bytes.
Hypothesis Hload : from_file io audio_bytes "mp3" = Ok loaded.
Hypothesis Hrate : set_frame_rate io loaded 22050 = Ok resampled.
Hypothesis Hmono : set_channels io resampled 1 = Ok mono.
Hypothesis Hsamples : get_array_of_samples io mono = Ok samples.
Hypothesis Hwidth : (1 <= sample_width io mono <= 4)%Z.

(** Once the audio has been loaded, [decode_audio] only depends on the
    number of samples. *)
Lemma decode_audio_by_length :
  exists data,
    List.length data = List.length samples
    /\ decode_audio io base64_string
       = if (Z.of_nat (List.length samples) <? 11025)%Z
         then Raise (ValueError ("Failed to process audio: " ++ too_short_message))
         else Ok (data, 22050%Z).
Proof.
  unfold decode_audio. rewrite Hb64. cbn [bind]. rewrite Hload. cbn [bind].
  rewrite Hrate. cbn [bind]. rewrite Hmono. cbn [bind].
  rewrite Hsamples. cbn [bind].
  assert (Hw : sample_width io mono = 1%Z \/ sample_width io mono = 2%Z
               \/ sample_width io mono = 3%Z \/ sample_width io mono = 4%Z)
    by lia.
  destruct Hw as [-> | [-> | [-> | ->]]]; cbn -[normalise Py.int_lt_float PrimFloat.mul];
    rewrite min_length_test, length_normalise;
    eexists; (split; [apply length_normalise |]);
    destruct (Z.of_nat (List.length samples) <? 11025)%Z; reflexivity.
Qed.

End Decode.

(** C6.  Once the audio has been loaded, a signal shorter than 11025 samples
    (11024 in particular) is rejected with a [ValueError] that says the audio
    is too short, which the endpoint answers as a bad request with that
    message; a signal of 11025 samples or more is returned with the rate
    22050. *)
Theorem C6_minimum_duration (io : AudioBackend)
    (base64_string audio_bytes : string)
    (loaded resampled mono : AudioSegment io) (samples : list Z) :
  b64decode io base64_string = Ok audio_bytes ->
  from_file io audio_bytes "mp3" = Ok loaded ->
  set_frame_rate io loaded 22050 = Ok resampled ->
  set_channels io resampled 1 = Ok mono ->
  get_array_of_samples io mono = Ok samples ->
  (1 <= sample_width io mono <= 4)%Z ->
  ((Z.of_nat (List.length samples) <= 11024)%Z ->
   decode_audio io base64_string
   = Raise (ValueError "Failed to process audio: Audio processing failed: Audio too short (min 0.5s required)")
   /\ forall lib key language,
        detect_voice lib io key (Some key) language base64_string
        = Failure 400 "Failed to process audio: Audio processing failed: Audio too short (min 0.5s required)")
  /\ ((11025 <= Z.of_nat (List.length samples))%Z ->
      exists data,
        decode_audio io base64_string = Ok (data, 22050%Z)
        /\ List.length data = List.length samples).
Proof.
  intros Hb64 Hload Hrate Hmono Hsamples Hwidth.
  destruct (decode_audio_by_length io _ _ _ _ _ _
              Hb64 Hload Hrate Hmono Hsamples Hwidth) as (data & Hlen & Hdec).
  split.
  - intros Hshort.
    assert (Hlt : (Z.of_nat (List.length samples) <? 11025)%Z = true)
      by (apply Z.ltb_lt; lia).
    rewrite Hlt in Hdec. split; [exact Hdec |].
    intros lib key language. unfold detect_voice.
    rewrite String.eqb_refl. cbn [negb]. rewrite Hdec. reflexivity.
  - intros Hlong.
    assert (Hge : (Z.of_nat (List.length samples) <? 11025)%Z = false)
      by (apply Z.ltb_ge; lia).
    rewrite Hge in Hdec. exists data. split; [exact Hdec | exact Hlen].
Qed.

Lemma C6_minimum_duration_witness :
  decode_audio (Reference.zero_backend 11024) "clip"
  = Raise (ValueError "Failed to process audio: Audio processing failed: Audio too short (min 0.5s required)")
  /\ exists data,
       decode_audio (Reference.zero_backend 11025) "clip" = Ok (data, 22050%Z)
       /\ Z.of_nat (List.length data) = 11025%Z.
Proof.
  assert (Hwidth : forall k seg,
             (1 <= sample_width (Reference.zero_backend k) seg <= 4)%Z)
    by (intros k seg; cbn; lia).
  split.
  - destruct (C6_minimum_duration (Reference.zero_backend 11024) "clip" "clip"
                (repeat 0%Z (Z.to_nat 11024)) (repeat 0%Z (Z.to_nat 11024))
                (repeat 0%Z (Z.to_nat 11024)) (repeat 0%Z (Z.to_nat 11024))
                eq_refl eq_refl eq_refl eq_refl eq_refl (Hwidth _ _))
      as [Hshort _].
    apply Hshort. rewrite repeat_length. lia.
  - destruct (C6_minimum_duration (Reference.zero_backend 11025) "clip" "clip"
                (repeat 0%Z (Z.to_nat 11025)) (repeat 0%Z (Z.to_nat 11025))
                (repeat 0%Z (Z.to_nat 11025)) (repeat 0%Z (Z.to_nat 11025))
                eq_refl eq_refl eq_refl eq_refl eq_refl (Hwidth _ _))
      as [_ Hlong].
    destruct Hlong as (data & Hdec & Hlen).
    + rewrite repeat_length. lia.
    + exists data. split; [exact Hdec |].
      rewrite Hlen, repeat_length. lia.
Defined.

(** ** Silence: no peak, no energy, zero autocorrelation *)

Lemma nth_repeat_cases (x d : float) (n i : nat) :
  nth i (repeat x n) d = x \/ nth i (repeat x n) d = d.
Proof.
  destruct (nth_in_or_default i (repeat x n) d) as [Hin | Hd]; [left | now right].
  exact (repeat_spec n x _ Hin).
Qed.

Lemma no_peak_in_silence (n : nat) (sr : Z) (i : nat) :
  Spec.is_peak (repeat 0 n) sr i = false.
Proof.
  unfold Spec.is_peak.
  destruct (nth_repeat_cases 0 nan n i) as [-> | ->];
    destruct (nth_repeat_cases 0 nan n (i - 1)) as [-> | ->];
    change (PrimFloat.ltb 0 0) with false;
    change (PrimFloat.ltb nan 0) with false;
    change (PrimFloat.ltb 0 nan) with false;
    change (PrimFloat.ltb nan nan) with false;
    rewrite ?andb_false_r; reflexivity.
Qed.

Lemma find_peaks_silent (n : nat) (sr : Z) : find_peaks (repeat 0 n) sr = [].
Proof.
  destruct (find_peaks (repeat 0 n) sr) as [| [i v] ps] eqn:Hpeaks;
    [reflexivity |].
  assert (Hin : In (i, v) (find_peaks (repeat 0 n) sr))
    by (rewrite Hpeaks; now left).
  apply in_find_peaks in Hin. destruct Hin as [Hpeak _].
  now rewrite no_peak_in_silence in Hpeak.
Qed.

Lemma mask_all_false (a : list float) (flags : list bool) (v : list float) :
  Forall (fun b => b = false) flags -> Np.mask a flags = Ok v -> v = [].
Proof.
  unfold Np.mask. intros Hall.
  destruct (List.length a =? List.length flags)%nat; [| discriminate].
  intros [= <-].
  revert a. induction Hall as [| b flags -> _ IH]; intros a.
  - destruct a; reflexivity.
  - destruct a as [| x a]; [reflexivity |]. cbn. apply IH.
Qed.

Lemma sum_of_zeros (a : list float) :
  Forall (fun x => x = 0) a -> fold_left PrimFloat.add a 0 = 0.
Proof.
  induction 1 as [| x a -> _ IH]; [reflexivity |].
  cbn [fold_left]. change (0 + 0) with 0. exact IH.
Qed.

Lemma map_constant (A B : Type) (g : A -> B) (c : B) (l : list A) :
  (forall x, In x l -> g x = c) -> map g l = repeat c (List.length l).
Proof.
  induction l as [| x l IH]; intros Hg; [reflexivity |].
  cbn. rewrite (Hg x (or_introl eq_refl)), IH; [reflexivity |].
  intros z Hz. apply Hg. now right.
Qed.

Lemma silent_lag (n k : nat) :
  fold_left PrimFloat.add
    (map (fun '(a, b) => a * b) (combine (repeat 0 n) (skipn k (repeat 0 n))))
    0 = 0.
Proof.
  apply sum_of_zeros, Forall_forall. intros p Hp.
  apply in_map_iff in Hp. destruct Hp as ([a b] & <- & Hab).
  pose proof (in_combine_l _ _ _ _ Hab) as Ha.
  pose proof (in_combine_r _ _ _ _ Hab) as Hb.
  apply repeat_spec in Ha.
  assert (Hb' : In b (repeat 0 n)).
  { rewrite <- (firstn_skipn k (repeat 0 n)). apply in_or_app. now right. }
  apply repeat_spec in Hb'. subst a b. reflexivity.
Qed.

(** The autocorrelation of silence is zero at every lag. *)
Lemma autocorrelate_silent (n : nat) :
  Reference.autocorrelate (repeat 0 n) = Ok (repeat 0 n).
Proof.
  unfold Reference.autocorrelate. f_equal.
  rewrite (map_constant _ _ _ 0 (seq 0 (List.length (repeat 0 n)))).
  - now rewrite length_seq, repeat_length.
  - intros k _. apply silent_lag.
Qed.

(** ** A silent signal *)

Lemma removelast_repeat (A : Type) (x : A) (n : nat) :
  removelast (repeat x (S n)) = repeat x n.
Proof.
  induction n as [| n IH]; [reflexivity |].
  change (repeat x (S (S n))) with (x :: repeat x (S n)).
  cbn [removelast]. rewrite IH. reflexivity.
Qed.

Lemma combine_repeat (A B : Type) (x : A) (y : B) (n : nat) :
  combine (repeat x n) (repeat y n) = repeat (x, y) n.
Proof. induction n as [| n IH]; cbn; [| rewrite IH]; reflexivity. Qed.

Lemma map_repeat (A B : Type) (g : A -> B) (x : A) (n : nat) :
  map g (repeat x n) = repeat (g x) n.
Proof. induction n as [| n IH]; cbn; [| rewrite IH]; reflexivity. Qed.

(** Pre-emphasis leaves a silent signal silent. *)
Lemma preemphasis_silent (n : nat) :
  preemphasis (repeat 0 (S n)) 0.97 = Ok (repeat 0 (S n)).
Proof.
  unfold preemphasis, Py.slice_from.
  change (Np.first (repeat 0 (S n))) with (Ok 0 : result float). cbn [bind].
  rewrite removelast_repeat.
  change (skipn 1 (repeat 0 (S n))) with (repeat 0 n).
  rewrite combine_repeat, map_repeat. reflexivity.
Qed.

Section Silent.

Variable lib : Externals.
Variable n : nat.
Variable energy_frames : nat.
Variable rms_rows : list (list float).
Variable rms_row : list float.
Variable flatness_rows : list (list float).

Let y : list float := repeat 0 n.

(** The signal has a valid length. *)
Hypothesis Hlength : (11025 <= Z.of_nat n)%Z.

(** [librosa.pyin] fails on the silent signal, or reports fewer than two
    frames of positive fundamental frequency. *)
Hypothesis Hpyin :
  forall fmin fmax,
    match librosa_pyin lib y fmin fmax 22050 2048 with
    | Ok (f0, _, _) =>
        (List.length (filter (fun x => Py.gt x 0) f0) < 2)%nat
    | Raise _ => True
    end.

(** [librosa.feature.rms] finds no energy in any frame (framed as
    [calculate_shimmer] asks), and returns one row of frames when called
    with its defaults. *)
Hypothesis Hrms :
  librosa_feature_rms lib y (Some 2048%Z) (Some 512%Z)
  = Ok [repeat 0 energy_frames].
Hypothesis Hrms_default :
  librosa_feature_rms lib y None None = Ok (rms_row :: rms_rows).

(** [librosa.feature.spectral_flatness] returns. *)
Hypothesis Hflatness :
  librosa_feature_spectral_flatness lib y = Ok flatness_rows.

(** The mean of zeros is not positive. *)
Hypothesis Hmean :
  Py.gt (np_mean lib (repeat 0 energy_frames)) 0 = false.

(** [librosa.autocorrelate] fails on the silent signal, or returns zero at
    every lag. *)
Hypothesis Hautocorr :
  match librosa_autocorrelate lib y with
  | Ok autocorr => autocorr = repeat 0 (List.length autocorr)
  | Raise _ => True
  end.

Lemma silent_nonempty : exists m, n = S m.
Proof. destruct n as [| m]; [lia | eauto]. Qed.

Lemma silent_jitter (f0 : list float) :
  (List.length (filter (fun x => Py.gt x 0) f0) < 2)%nat ->
  calculate_jitter lib y 22050 f0 = 0.
Proof.
  intros H. unfold calculate_jitter.
  apply Nat.ltb_lt in H. rewrite H. reflexivity.
Qed.

Lemma silent_pitch_f0 :
  let '(_, _, f0) := pitch_statistics lib y 22050 in
  (List.length (filter (fun x => Py.gt x 0) f0) < 2)%nat.
Proof.
  unfold pitch_statistics.
  destruct (librosa_note_to_hz lib "C2") as [fmin |]; cbn; [| lia].
  destruct (librosa_note_to_hz lib "C7") as [fmax |]; cbn; [| lia].
  specialize (Hpyin fmin fmax).
  destruct (librosa_pyin lib y fmin fmax 22050 2048) as [[[f0 vf] vp] |];
    cbn; [| lia].
  destruct (Np.mask f0 vf) as [pv |]; cbn; [| lia].
  destruct (List.length pv =? 0)%nat; cbn; exact Hpyin.
Qed.

Lemma silent_shimmer : calculate_shimmer lib y 22050 = 0.
Proof.
  unfold calculate_shimmer. rewrite Hrms. cbn [bind Np.first].
  destruct (_ <? 2)%nat; cbn [catch_default]; [reflexivity |].
  rewrite Hmean. reflexivity.
Qed.

(** Whatever the signal, the HNR is the default or a clipped value. *)
Lemma hnr_default_or_clipped (x : list float) (sr : Z) :
  calculate_hnr lib x sr = 10
  \/ exists v, calculate_hnr lib x sr = Np.clip v 0 40.
Proof.
  unfold calculate_hnr.
  destruct (librosa_autocorrelate lib x) as [a |]; cbn [bind catch_default];
    [| now left].
  unfold hnr_of_autocorr.
  destruct (find_peaks a sr) as [| p ps]; [now left |].
  destruct (max_by_value p ps) as [peak_idx peak_val].
  destruct (Py.gt (np_mean lib (noise_window a peak_idx)) 0);
    [right; eexists; reflexivity | now left].
Qed.

(** Without a peak in the autocorrelation the HNR is the default. *)
Lemma silent_hnr : calculate_hnr lib y 22050 = 10.
Proof.
  unfold calculate_hnr.
  destruct (librosa_autocorrelate lib y) as [autocorr |];
    cbn [bind catch_default]; [| reflexivity].
  unfold hnr_of_autocorr. rewrite Hautocorr, find_peaks_silent. reflexivity.
Qed.

Lemma silent_features :
  exists f,
    extract_features lib classifier y 22050 = Ok f
    /\ jitter f = 0 /\ shimmer f = 0 /\ hnr f = 10.
Proof.
  unfold extract_features.
  destruct silent_nonempty as [m Hm].
  assert (Hpre : preemphasis y 0.97 = Ok y)
    by (unfold y; rewrite Hm; apply preemphasis_silent).
  rewrite Hpre. cbn [bind].
  pose proof silent_pitch_f0 as Hf0.
  destruct (pitch_statistics lib y 22050) as [[ps pm] f0].
  rewrite Hflatness. cbn [bind]. rewrite Hrms_default. cbn [bind Np.first].
  eexists. split; [reflexivity |]. cbn [jitter shimmer hnr].
  split; [| split; [apply silent_shimmer | apply silent_hnr]].
  apply silent_jitter.
  destruct (0 <? List.length f0)%nat; [exact Hf0 | cbn; lia].
Qed.

End Silent.

(** C7.  On a silent signal of valid length, provided the library routines
    behave on silence as stated (no energy, fewer than two voiced frames, a
    flatness value, an autocorrelation that is zero at every lag or fails),
    extraction and classification raise nothing: jitter and shimmer are
    0.0, the HNR is 10.0 (the default, which lies in the clipping range from
    0 to 40), and [predict] returns a label, a confidence and an
    explanation. *)
Theorem C7_silent_signal (lib : Externals) (n energy_frames : nat)
    (rms_rows : list (list float)) (rms_row : list float)
    (flatness_rows : list (list float)) :
  (11025 <= Z.of_nat n)%Z ->
  (forall fmin fmax,
      match librosa_pyin lib (repeat 0 n) fmin fmax 22050 2048 with
      | Ok (f0, _, _) => (List.length (filter (fun x => Py.gt x 0) f0) < 2)%nat
      | Raise _ => True
      end) ->
  librosa_feature_rms lib (repeat 0 n) (Some 2048%Z) (Some 512%Z)
  = Ok [repeat 0 energy_frames] ->
  librosa_feature_rms lib (repeat 0 n) None None = Ok (rms_row :: rms_rows) ->
  librosa_feature_spectral_flatness lib (repeat 0 n) = Ok flatness_rows ->
  Py.gt (np_mean lib (repeat 0 energy_frames)) 0 = false ->
  match librosa_autocorrelate lib (repeat 0 n) with
  | Ok autocorr => autocorr = repeat 0 (List.length autocorr)
  | Raise _ => True
  end ->
  exists f label confidence explanation,
    extract_features lib classifier (repeat 0 n) 22050 = Ok f
    /\ jitter f = 0 /\ shimmer f = 0
    /\ hnr f = 10
    /\ PrimFloat.leb 0 (hnr f) = true /\ PrimFloat.leb (hnr f) 40 = true
    /\ predict lib classifier (repeat 0 n) 22050
       = Ok (label, confidence, explanation)
    /\ (label, confidence, explanation) = predict_features classifier f.
Proof.
  intros Hlength Hpyin Hrms Hrms_default Hflatness Hmean Hautocorr.
  destruct (silent_features lib n energy_frames rms_rows rms_row flatness_rows
              Hlength Hpyin Hrms Hrms_default Hflatness Hmean Hautocorr)
    as (f & Hf & Hj & Hs & Hh).
  destruct (predict_features classifier f) as [[label confidence] explanation]
    eqn:Hp.
  exists f, label, confidence, explanation.
  repeat (split; [assumption |]).
  split; [rewrite Hh; vm_compute; reflexivity |].
  split; [rewrite Hh; vm_compute; reflexivity |].
  split; [| now rewrite Hp].
  unfold predict. rewrite Hf. cbn [bind]. rewrite Hp. reflexivity.
Qed.

Lemma C7_silent_signal_witness :
  exists f label confidence explanation,
    extract_features Reference.silent_lib classifier (repeat 0 (Z.to_nat 11025)) 22050
    = Ok f
    /\ jitter f = 0 /\ shimmer f = 0
    /\ hnr f = 10
    /\ PrimFloat.leb 0 (hnr f) = true /\ PrimFloat.leb (hnr f) 40 = true
    /\ predict Reference.silent_lib classifier (repeat 0 (Z.to_nat 11025)) 22050
       = Ok (label, confidence, explanation)
    /\ (label, confidence, explanation) = predict_features classifier f.
Proof.
  apply (C7_silent_signal Reference.silent_lib (Z.to_nat 11025) 22 []
           (repeat 0 22) [repeat 1 22]).
  - rewrite Z2Nat.id; lia.
  - intros fmin fmax. vm_compute. lia.
  - vm_compute. reflexivity.
  - vm_compute. reflexivity.
  - vm_compute. reflexivity.
  - vm_compute. reflexivity.
  - change (librosa_autocorrelate Reference.silent_lib)
      with Reference.autocorrelate.
    rewrite autocorrelate_silent. now rewrite repeat_length.
Defined.

(** *** What a silent signal is classified as *)

(** The verdict on features that read: no pitch, no jitter, no shimmer,
    default HNR. *)
Lemma flat_features_verdict (pm flatness silence : float) :
  predict_features classifier
    {| pitch_std := 0; pitch_mean := pm; jitter := 0; shimmer := 0; hnr := 10;
       spectral_flatness := flatness; silence_ratio := silence |}
  = (AI_GENERATED, 0.99,
     "Monotone pitch pattern (std: 0.0Hz) | Perfect pitch timing (jitter: 0.000) | Uniform amplitude (shimmer: 0.000)"%string).
Proof.
  unfold predict_features, decide, ai_probability, raw_probability.
  unfold_rules.
  cbn [pitch_std jitter shimmer hnr spectral_flatness silence_ratio].
  destruct (PrimFloat.ltb flatness 0.01), (PrimFloat.ltb silence 0.02);
    vm_compute; reflexivity.
Qed.

(** A silent signal of valid length, on which the pitch tracker reports no
    voiced frame and the autocorrelation is zero at every lag, is classified
    [AI_GENERATED] with confidence 0.99. *)
Theorem silent_signal_verdict (lib : Externals) (n lags energy_frames : nat)
    (rms_rows : list (list float)) (rms_row : list float)
    (flatness_rows : list (list float)) :
  (11025 <= Z.of_nat n)%Z ->
  (forall fmin fmax,
      match librosa_pyin lib (repeat 0 n) fmin fmax 22050 2048 with
      | Ok (f0, voiced_flag, _) =>
          filter (fun x => Py.gt x 0) f0 = []
          /\ Forall (fun b => b = false) voiced_flag
      | Raise _ => True
      end) ->
  librosa_autocorrelate lib (repeat 0 n) = Ok (repeat 0 lags) ->
  librosa_feature_rms lib (repeat 0 n) (Some 2048%Z) (Some 512%Z)
  = Ok [repeat 0 energy_frames] ->
  librosa_feature_rms lib (repeat 0 n) None None = Ok (rms_row :: rms_rows) ->
  librosa_feature_spectral_flatness lib (repeat 0 n) = Ok flatness_rows ->
  Py.gt (np_mean lib (repeat 0 energy_frames)) 0 = false ->
  predict lib classifier (repeat 0 n) 22050
  = Ok (AI_GENERATED, 0.99,
        "Monotone pitch pattern (std: 0.0Hz) | Perfect pitch timing (jitter: 0.000) | Uniform amplitude (shimmer: 0.000)"%string).
Proof.
  intros Hlength Hpyin Hauto Hrms Hrms_default Hflatness Hmean.
  unfold predict, extract_features.
  destruct n as [| m]; [cbn in Hlength; lia |].
  rewrite preemphasis_silent. cbn [bind].
  assert (Hpitch : exists f0,
             pitch_statistics lib (repeat 0 (S m)) 22050 = (0, 0, f0)
             /\ filter (fun x => Py.gt x 0) f0 = []).
  { unfold pitch_statistics.
    destruct (librosa_note_to_hz lib "C2") as [fmin |];
      cbn [bind catch_default]; [| now exists []].
    destruct (librosa_note_to_hz lib "C7") as [fmax |];
      cbn [bind catch_default]; [| now exists []].
    specialize (Hpyin fmin fmax).
    destruct (librosa_pyin lib (repeat 0 (S m)) fmin fmax 22050 2048)
      as [[[f0 vf] vp] |]; cbn [bind catch_default]; [| now exists []].
    destruct Hpyin as [Hf0 Hvf].
    destruct (Np.mask f0 vf) as [pv |] eqn:Hmask;
      cbn [bind catch_default]; [| now exists []].
    rewrite (mask_all_false f0 vf pv Hvf Hmask). cbn. now exists f0. }
  destruct Hpitch as (f0 & -> & Hf0).
  rewrite Hflatness. cbn [bind]. rewrite Hrms_default. cbn [bind Np.first].
  assert (Hjitter :
            calculate_jitter lib (repeat 0 (S m)) 22050
              (if (0 <? List.length f0)%nat then f0 else []) = 0).
  { unfold calculate_jitter.
    destruct (0 <? List.length f0)%nat; [rewrite Hf0 |]; reflexivity. }
  assert (Hshimmer : calculate_shimmer lib (repeat 0 (S m)) 22050 = 0).
  { unfold calculate_shimmer. rewrite Hrms. cbn [bind Np.first].
    destruct (_ <? 2)%nat; cbn [catch_default]; [reflexivity |].
    rewrite Hmean. reflexivity. }
  assert (Hhnr : calculate_hnr lib (repeat 0 (S m)) 22050 = 10).
  { unfold calculate_hnr. rewrite Hauto. cbn [bind catch_default].
    unfold hnr_of_autocorr. rewrite find_peaks_silent. reflexivity. }
  rewrite Hjitter, Hshimmer, Hhnr.
  rewrite flat_features_verdict. reflexivity.
Qed.

Lemma silent_signal_verdict_witness :
  predict Reference.silent_lib classifier (repeat 0 (Z.to_nat 11025)) 22050
  = Ok (AI_GENERATED, 0.99,
        "Monotone pitch pattern (std: 0.0Hz) | Perfect pitch timing (jitter: 0.000) | Uniform amplitude (shimmer: 0.000)"%string).
Proof.
  apply (silent_signal_verdict Reference.silent_lib (Z.to_nat 11025)
           (Z.to_nat 11025) 22 [] (repeat 0 22) [repeat 1 22]).
  - rewrite Z2Nat.id; lia.
  - intros fmin fmax. split; [vm_compute; reflexivity |].
    cbn. repeat constructor.
  - apply autocorrelate_silent.
  - vm_compute. reflexivity.
  - vm_compute. reflexivity.
  - vm_compute. reflexivity.
  - vm_compute. reflexivity.
Defined.

(* ================================================================== *)
(** * Further properties of the code *)

(** ** Verdicts decided by the three main rules *)

Lemma three_tests_pass_decide (f : FeatureSet) :
  PrimFloat.ltb (pitch_std f) 20.0 = true ->
  PrimFloat.ltb (jitter f) 0.03 = true ->
  PrimFloat.ltb (shimmer f) 0.05 = true ->
  label_of (decide classifier f) = AI_GENERATED
  /\ confidence_of (decide classifier f) = 0.99.
Proof.
  intros Hp Hj Hs.
  rewrite confidence_by_label, decide_label, ai_probability_of_score.
  unfold_rules. rewrite Hp, Hj, Hs.
  destruct (PrimFloat.ltb 20.0 (hnr f)), (PrimFloat.ltb (hnr f) 10.0),
    (PrimFloat.ltb (spectral_flatness f) 0.01),
    (PrimFloat.ltb (silence_ratio f) 0.02); split; reflexivity.
Qed.

(** When the pitch, jitter and shimmer tests all pass, the remaining rules
    cannot change the outcome: the verdict is [AI_GENERATED] with the
    confidence clamped to 0.99, explained by the three notes of these
    rules. *)
Theorem three_tests_pass_verdict (f : FeatureSet) :
  PrimFloat.ltb (pitch_std f) 20.0 = true ->
  PrimFloat.ltb (jitter f) 0.03 = true ->
  PrimFloat.ltb (shimmer f) 0.05 = true ->
  predict_features classifier f
  = (AI_GENERATED, 0.99,
     Py.join " | " [note_monotone f; note_jitter f; note_shimmer f]).
Proof.
  intros Hp Hj Hs.
  rewrite predict_features_decide.
  destruct (three_tests_pass_decide f Hp Hj Hs) as [Hlabel Hconf].
  rewrite (explanation_when_ai f Hlabel), Hlabel, Hconf.
  replace (Py.round 0.99 2) with 0.99 by (vm_compute; reflexivity).
  unfold table_notes, Spec.positive_notes. rewrite Hp, Hj, Hs. reflexivity.
Qed.

Lemma three_tests_pass_verdict_witness :
  predict_features classifier synthetic_features
  = (AI_GENERATED, 0.99,
     "Monotone pitch pattern (std: 0.0Hz) | Perfect pitch timing (jitter: 0.000) | Uniform amplitude (shimmer: 0.000)"%string).
Proof.
  rewrite (three_tests_pass_verdict synthetic_features); reflexivity.
Defined.

(** When the pitch, jitter and shimmer tests all fail, the verdict is
    [HUMAN] whatever the HNR, the spectral flatness and the silence ratio
    are, with a reported confidence between 0.58 and 0.82. *)
Theorem three_tests_fail_verdict (f : FeatureSet) :
  PrimFloat.ltb (pitch_std f) 20.0 = false ->
  PrimFloat.ltb (jitter f) 0.03 = false ->
  PrimFloat.ltb (shimmer f) 0.05 = false ->
  label_of (predict_features classifier f) = HUMAN
  /\ PrimFloat.leb 0.58 (confidence_of (predict_features classifier f)) = true
  /\ PrimFloat.leb (confidence_of (predict_features classifier f)) 0.82 = true.
Proof.
  intros Hp Hj Hs.
  rewrite predict_label, predict_confidence.
  rewrite confidence_by_label, decide_label, ai_probability_of_score.
  unfold_rules. rewrite Hp, Hj, Hs.
  destruct (PrimFloat.ltb 20.0 (hnr f)), (PrimFloat.ltb (hnr f) 10.0),
    (PrimFloat.ltb (spectral_flatness f) 0.01),
    (PrimFloat.ltb (silence_ratio f) 0.02); repeat split; reflexivity.
Qed.

Lemma three_tests_fail_verdict_witness :
  label_of (predict_features classifier natural_features) = HUMAN
  /\ PrimFloat.leb 0.58 (confidence_of (predict_features classifier natural_features)) = true
  /\ PrimFloat.leb (confidence_of (predict_features classifier natural_features)) 0.82 = true.
Proof.
  apply (three_tests_fail_verdict natural_features); reflexivity.
Defined.

(** ** NaN and the order *)

Lemma is_nan_key (x : float) : PrimFloat.is_nan x = false -> key x <> None.
Proof.
  unfold PrimFloat.is_nan, key. rewrite eqb_spec. intros H Hk.
  rewrite (sf_key_none _ Hk) in H. discriminate.
Qed.

Lemma key_is_nan (x : float) : key x <> None -> PrimFloat.is_nan x = false.
Proof.
  unfold PrimFloat.is_nan, key. rewrite eqb_spec. intros Hk.
  unfold SFeqb.
  destruct (sf_key (Prim2SF x)) as [k |] eqn:Hx; [| congruence].
  destruct (SFcompare_key _ _ _ _ Hx Hx) as (_ & Heq & _).
  rewrite (proj2 Heq eq_refl). reflexivity.
Qed.

Lemma not_leb_ltb (a b : float) :
  key a <> None -> key b <> None ->
  PrimFloat.leb b a = false -> PrimFloat.ltb a b = true.
Proof.
  intros Ha Hb Hba. apply ltb_key.
  assert (Hn : ~ match key b, key a with
                 | Some kb, Some ka => lex_le kb ka
                 | _, _ => False
                 end)
    by (rewrite <- leb_key, Hba; discriminate).
  destruct (key a) as [[[a1 a2] a3] |], (key b) as [[[b1 b2] b3] |];
    cbn in *; try congruence; lia.
Qed.

(** ** The explanation of a [HUMAN] verdict *)

(** A [HUMAN] verdict on features among which pitch deviation, jitter and
    shimmer are numbers (not NaN) always names at least one trait: the
    generic phrase "Natural pitch variation and prosody detected" is only
    returned when one of these three features is NaN. *)
Theorem human_explanation_names_traits (f : FeatureSet) :
  label_of (predict_features classifier f) = HUMAN ->
  PrimFloat.is_nan (pitch_std f) = false ->
  PrimFloat.is_nan (jitter f) = false ->
  PrimFloat.is_nan (shimmer f) = false ->
  human_traits classifier f <> []
  /\ explanation_of (predict_features classifier f)
     = ("Natural speech characteristics: "
        ++ Py.join ", " (human_traits classifier f))%string.
Proof.
  intros Hlabel Hp Hj Hs.
  apply is_nan_key in Hp, Hj, Hs.
  assert (Htraits : human_traits classifier f <> []).
  { unfold human_traits, Py.ge.
    cbn [classifier VoiceClassifier_init PITCH_STD_THRESHOLD JITTER_THRESHOLD
         SHIMMER_THRESHOLD].
    destruct (PrimFloat.leb 20.0 (pitch_std f)) eqn:Lp; [discriminate |].
    destruct (PrimFloat.leb 0.03 (jitter f)) eqn:Lj; [discriminate |].
    destruct (PrimFloat.leb 0.05 (shimmer f)) eqn:Ls; [discriminate |].
    exfalso.
    apply not_leb_ltb in Lp; [| assumption | vm_compute; discriminate].
    apply not_leb_ltb in Lj; [| assumption | vm_compute; discriminate].
    apply not_leb_ltb in Ls; [| assumption | vm_compute; discriminate].
    rewrite predict_label in Hlabel.
    destruct (three_tests_pass_decide f Lp Lj Ls) as [Hai _]. congruence. }
  split; [exact Htraits |].
  rewrite predict_label in Hlabel. rewrite predict_explanation.
  revert Hlabel. unfold decide, Py.gt.
  destruct (PrimFloat.ltb 0.5 (ai_probability classifier f)); [discriminate |].
  intros _. unfold explanation_of. cbn [snd].
  destruct (human_traits classifier f); [congruence | reflexivity].
Qed.

Lemma human_explanation_names_traits_witness :
  human_traits classifier natural_features <> []
  /\ explanation_of (predict_features classifier natural_features)
     = "Natural speech characteristics: dynamic intonation, natural pitch variation, organic amplitude changes"%string.
Proof.
  destruct (human_explanation_names_traits natural_features) as [Ht He];
    try reflexivity.
  split; [exact Ht |]. rewrite He. reflexivity.
Defined.

(** ** More on the harmonic-to-noise ratio *)

Lemma clip_nan_or_in_range (v : float) :
  PrimFloat.is_nan (Np.clip v 0 40) = true
  \/ (PrimFloat.leb 0 (Np.clip v 0 40) = true
      /\ PrimFloat.leb (Np.clip v 0 40) 40 = true).
Proof.
  unfold Np.clip, Py.lt, Py.gt.
  destruct (PrimFloat.is_nan v) eqn:Hnan; [now left |].
  right. apply is_nan_key in Hnan.
  destruct (PrimFloat.ltb v 0) eqn:Hlo; [split; reflexivity |].
  destruct (PrimFloat.ltb 40 v) eqn:Hhi; [split; reflexivity |].
  split.
  - apply not_ltb_leb; [assumption | vm_compute; discriminate | assumption].
  - apply not_ltb_leb; [vm_compute; discriminate | assumption | assumption].
Qed.

Lemma clip_is_nan (v : float) :
  PrimFloat.is_nan (Np.clip v 0 40) = PrimFloat.is_nan v.
Proof.
  unfold Np.clip, Py.lt, Py.gt.
  destruct (PrimFloat.is_nan v) eqn:Hnan; [exact Hnan |].
  destruct (PrimFloat.ltb v 0); [reflexivity |].
  destruct (PrimFloat.ltb 40 v); [reflexivity | exact Hnan].
Qed.

(** Whatever the signal and whatever the libraries return or raise, the HNR
    is NaN or lies between 0 and 40.  It is NaN in one case only: the
    autocorrelation returned, the loop recorded a peak, the noise power is
    positive, and ten times the logarithm of the ratio is NaN, which
    [np.clip] passes on.  Every other path returns 10.0 or a clipped
    number. *)
Theorem hnr_nan_or_in_range (lib : Externals) (y : list float) (sr : Z) :
  (PrimFloat.is_nan (calculate_hnr lib y sr) = true
   \/ (PrimFloat.leb 0 (calculate_hnr lib y sr) = true
       /\ PrimFloat.leb (calculate_hnr lib y sr) 40 = true))
  /\ (PrimFloat.is_nan (calculate_hnr lib y sr) = true
      <-> exists autocorr p ps,
            librosa_autocorrelate lib y = Ok autocorr
            /\ find_peaks autocorr sr = p :: ps
            /\ Py.gt (np_mean lib
                        (noise_window autocorr (fst (max_by_value p ps)))) 0
               = true
            /\ PrimFloat.is_nan
                 (10 * np_log10 lib
                         (snd (max_by_value p ps)
                          / np_mean lib
                              (noise_window autocorr
                                 (fst (max_by_value p ps)))))
               = true).
Proof.
  split.
  - destruct (hnr_default_or_clipped lib y sr) as [-> | [v ->]].
    + right. split; reflexivity.
    + apply clip_nan_or_in_range.
  - unfold calculate_hnr.
    destruct (librosa_autocorrelate lib y) as [a | e];
      cbn [bind catch_default].
    + unfold hnr_of_autocorr.
      destruct (find_peaks a sr) as [| p ps] eqn:Hpeaks.
      * split; [discriminate |].
        intros (a' & p' & ps' & Ha & Hp & _).
        injection Ha as <-. rewrite Hpeaks in Hp. discriminate.
      * destruct (max_by_value p ps) as [peak_idx peak_val] eqn:Hmax.
        destruct (Py.gt (np_mean lib (noise_window a peak_idx)) 0) eqn:Hnoise.
        -- rewrite clip_is_nan. split.
           ++ intros Hnan. exists a, p, ps. rewrite Hmax. cbn [fst snd].
              repeat split; assumption.
           ++ intros (a' & p' & ps' & Ha & Hp & _ & Hnan).
              injection Ha as <-. rewrite Hpeaks in Hp.
              injection Hp as <- <-. rewrite Hmax in Hnan. exact Hnan.
        -- split; [discriminate |].
           intros (a' & p' & ps' & Ha & Hp & Hgt & _).
           injection Ha as <-. rewrite Hpeaks in Hp.
           injection Hp as <- <-. rewrite Hmax in Hgt. cbn [fst] in Hgt.
           rewrite Hnoise in Hgt. discriminate.
    + split; [discriminate |].
      intros (a' & p' & ps' & Ha & _). discriminate.
Qed.

(** The NaN does occur: a negative peak over a positive noise power. *)
Lemma hnr_nan_reached :
  PrimFloat.is_nan (calculate_hnr negative_peak_lib short_silence 22050) = true.
Proof. vm_compute. reflexivity. Qed.

Lemma find_peaks_none (a : list float) (sr : Z) :
  (forall i, Spec.is_peak a sr i = false) -> find_peaks a sr = [].
Proof.
  intros Hnone.
  destruct (find_peaks a sr) as [| [i v] ps] eqn:Hpeaks; [reflexivity |].
  assert (Hin : In (i, v) (find_peaks a sr)) by (rewrite Hpeaks; now left).
  apply in_find_peaks in Hin. destruct Hin as [Hpeak _].
  now rewrite Hnone in Hpeak.
Qed.

(** With a sample rate below 100 there is no lag to search
    ([sr // 50 <= 1]), and an autocorrelation of at most two samples has no
    interior sample: in both cases the HNR is the default 10.0. *)
Theorem hnr_default_without_lags (lib : Externals) (y : list float) (sr : Z) :
  (sr < 100)%Z
  \/ (forall autocorr, librosa_autocorrelate lib y = Ok autocorr ->
                       (List.length autocorr <= 2)%nat) ->
  calculate_hnr lib y sr = 10.
Proof.
  intros Hedge. unfold calculate_hnr.
  destruct (librosa_autocorrelate lib y) as [a | e]; [| reflexivity].
  cbn [bind catch_default]. unfold hnr_of_autocorr.
  rewrite find_peaks_none; [reflexivity |].
  intros i. unfold Spec.is_peak.
  destruct Hedge as [Hsr | Hlen].
  - assert (Hdiv : (sr / 50 < 2)%Z)
      by (apply Z.div_lt_upper_bound; lia).
    destruct (1 <=? i)%nat eqn:H1; [| reflexivity].
    apply Nat.leb_le in H1.
    assert (H2 : (Z.of_nat i <? sr / 50)%Z = false) by (apply Z.ltb_ge; lia).
    rewrite H2. reflexivity.
  - specialize (Hlen a eq_refl).
    destruct (1 <=? i)%nat eqn:H1; [| reflexivity].
    apply Nat.leb_le in H1.
    assert (H3 : (i + 1 <? List.length a)%nat = false)
      by (apply Nat.ltb_ge; lia).
    rewrite H3, andb_false_r. reflexivity.
Qed.

Lemma hnr_default_without_lags_witness :
  calculate_hnr Reference.lib impulse_signal 99 = 10.
Proof.
  apply hnr_default_without_lags. left. lia.
Defined.

(** Every peak the loop records is an interior lag between 1 and
    [sr // 50 - 1] whose recorded value is the sample at that lag and is not
    NaN, and the slice averaged after it holds between 1 and 49 samples:
    [np.mean] is never applied to an empty slice. *)
Theorem recorded_peak_bounds (a : list float) (sr : Z) (p : nat) (v : float) :
  In (p, v) (find_peaks a sr) ->
  (1 <= p)%nat /\ (Z.of_nat p < sr / 50)%Z /\ (p + 1 < List.length a)%nat
  /\ v = nth p a nan /\ PrimFloat.is_nan v = false
  /\ (1 <= List.length (noise_window a p) <= 49)%nat.
Proof.
  intros Hin. apply in_find_peaks in Hin. destruct Hin as [Hpeak ->].
  pose proof (peak_is_number a sr p Hpeak) as Hnum.
  unfold Spec.is_peak in Hpeak. rewrite !andb_true_iff in Hpeak.
  destruct Hpeak as ((((H1 & H2) & H3) & _) & _).
  apply Nat.leb_le in H1. apply Z.ltb_lt in H2. apply Nat.ltb_lt in H3.
  repeat split; try assumption; try reflexivity.
  - now apply key_is_nan.
  - rewrite noise_window_49, length_firstn, length_skipn. lia.
  - rewrite noise_window_49, length_firstn, length_skipn. lia.
Qed.

Lemma recorded_peak_bounds_witness :
  (1 <= 2)%nat /\ (Z.of_nat 2 < 22050 / 50)%Z /\ (2 + 1 < 5)%nat
  /\ 3 = nth 2 [0; 1; 3; 1; 0] nan /\ PrimFloat.is_nan 3 = false
  /\ (1 <= List.length (noise_window [0; 1; 3; 1; 0]%float 2) <= 49)%nat.
Proof.
  apply (recorded_peak_bounds [0; 1; 3; 1; 0] 22050 2 3).
  vm_compute. auto.
Defined.

(** *** Which peak [max] picks when several share the maximum *)

Lemma leb_ltb_trans (a b c : float) :
  PrimFloat.leb a b = true -> PrimFloat.ltb b c = true ->
  PrimFloat.ltb a c = true.
Proof.
  rewrite leb_key, !ltb_key.
  destruct (key a) as [[[a1 a2] a3] |], (key b) as [[[b1 b2] b3] |],
    (key c) as [[[c1 c2] c3] |]; cbn; try tauto; lia.
Qed.

(** [max] splits the list at the item it returns: the items before it are
    strictly smaller, the items after it are not greater. *)
Lemma max_by_value_split (ps pre mid : list (nat * float)) (best : nat * float) :
  (forall x, In x (pre ++ best :: mid ++ ps) -> key (snd x) <> None) ->
  (forall x, In x pre -> PrimFloat.ltb (snd x) (snd best) = true) ->
  (forall x, In x mid -> PrimFloat.leb (snd x) (snd best) = true) ->
  exists l1 l2,
    pre ++ best :: mid ++ ps = l1 ++ max_by_value best ps :: l2
    /\ (forall x, In x l1 ->
                  PrimFloat.ltb (snd x) (snd (max_by_value best ps)) = true)
    /\ (forall x, In x l2 ->
                  PrimFloat.leb (snd x) (snd (max_by_value best ps)) = true).
Proof.
  unfold max_by_value, Py.gt.
  revert pre mid best.
  induction ps as [| q ps IH]; intros pre mid best Hnum Hpre Hmid.
  - exists pre, mid. rewrite app_nil_r. cbn [fold_left]. auto.
  - cbn [fold_left].
    assert (Hb : key (snd best) <> None)
      by (apply Hnum, in_or_app; right; now left).
    assert (Hq : key (snd q) <> None).
    { apply Hnum, in_or_app. right. right. apply in_or_app. right. now left. }
    destruct (PrimFloat.ltb (snd best) (snd q)) eqn:Hbq.
    + destruct (IH (pre ++ best :: mid) [] q) as (l1 & l2 & Heq & H1 & H2).
      * intros x Hx. apply Hnum.
        rewrite <- app_assoc in Hx. cbn [app] in Hx.
        rewrite in_app_iff in Hx. rewrite in_app_iff.
        destruct Hx as [Hx | [<- | Hx]]; [now left | right; now left |].
        right. right. rewrite in_app_iff in Hx. rewrite in_app_iff.
        destruct Hx as [Hx | Hx]; [now left |]. right.
        cbn [app] in Hx. exact Hx.
      * intros x Hx. rewrite in_app_iff in Hx.
        destruct Hx as [Hx | [<- | Hx]].
        -- apply (ltb_trans _ (snd best)); [now apply Hpre | exact Hbq].
        -- exact Hbq.
        -- apply (leb_ltb_trans _ (snd best)); [now apply Hmid | exact Hbq].
      * intros x [].
      * exists l1, l2. split; [| auto].
        rewrite <- Heq. rewrite <- !app_assoc. reflexivity.
    + destruct (IH pre (mid ++ [q]) best) as (l1 & l2 & Heq & H1 & H2).
      * intros x Hx. apply Hnum.
        rewrite <- app_assoc in Hx. exact Hx.
      * exact Hpre.
      * intros x Hx. rewrite in_app_iff in Hx.
        destruct Hx as [Hx | [<- | []]]; [now apply Hmid |].
        now apply not_ltb_leb.
      * exists l1, l2. split; [| auto].
        rewrite <- Heq. rewrite <- app_assoc. reflexivity.
Qed.

(** The recorded peaks come in increasing order of lag. *)
Lemma mapped_lags_increase (t : nat -> bool) (g : nat -> nat * float)
    (k s : nat) (l1 l2 : list (nat * float)) (x : nat * float) :
  (forall i, fst (g i) = i) ->
  map g (filter t (seq s k)) = l1 ++ x :: l2 ->
  forall y, In y l2 -> (fst x < fst y)%nat.
Proof.
  intros Hg. revert s l1.
  induction k as [| k IH]; intros s l1 Heq y Hy.
  - destruct l1; discriminate.
  - cbn [seq filter] in Heq.
    destruct (t s).
    + cbn [map] in Heq. destruct l1 as [| z l1].
      * cbn [app] in Heq. injection Heq as <- <-.
        apply in_map_iff in Hy. destruct Hy as (i & <- & Hi).
        apply filter_In in Hi. destruct Hi as [Hi _].
        apply in_seq in Hi. rewrite !Hg. lia.
      * cbn [app] in Heq. injection Heq as _ Heq.
        exact (IH (S s) l1 Heq y Hy).
    + exact (IH (S s) l1 Heq y Hy).
Qed.

Lemma peaks_increase (a : list float) (sr : Z)
    (l1 l2 : list (nat * float)) (x : nat * float) :
  find_peaks a sr = l1 ++ x :: l2 ->
  forall y, In y l2 -> (fst x < fst y)%nat.
Proof.
  unfold find_peaks, range_from_1. rewrite fold_peaks. cbn [app].
  apply mapped_lags_increase. reflexivity.
Qed.

(** When the loop has recorded peaks, the one [max] returns is a peak of
    maximal value, and every peak at a smaller lag has a strictly smaller
    value: among peaks that share the maximum, the smallest lag is used. *)
Theorem first_maximal_peak (a : list float) (sr : Z)
    (p : nat * float) (ps : list (nat * float)) :
  find_peaks a sr = p :: ps ->
  let peak_idx := fst (max_by_value p ps) in
  let peak_val := snd (max_by_value p ps) in
  Spec.is_peak a sr peak_idx = true
  /\ peak_val = nth peak_idx a nan
  /\ (forall j, Spec.is_peak a sr j = true ->
                PrimFloat.leb (nth j a nan) peak_val = true)
  /\ (forall j, Spec.is_peak a sr j = true -> (j < peak_idx)%nat ->
                PrimFloat.ltb (nth j a nan) peak_val = true).
Proof.
  intros Hpeaks peak_idx peak_val.
  assert (Hall : forall x, In x (p :: ps) ->
                           Spec.is_peak a sr (fst x) = true
                           /\ snd x = nth (fst x) a nan).
  { intros [i v] Hx. rewrite <- Hpeaks in Hx. now apply in_find_peaks in Hx. }
  assert (Hnum : forall x, In x (p :: ps) -> key (snd x) <> None).
  { intros x Hx. destruct (Hall x Hx) as [Hpk ->].
    exact (peak_is_number a sr _ Hpk). }
  destruct (max_by_value_split ps [] [] p) as (l1 & l2 & Heq & H1 & H2).
  { exact Hnum. }
  { intros x []. }
  { intros x []. }
  cbn [app] in Heq.
  assert (Hbest : In (max_by_value p ps) (p :: ps)).
  { rewrite Heq. apply in_or_app. right. now left. }
  destruct (Hall _ Hbest) as [Hpk Hval].
  fold peak_idx in Hpk, Hval. fold peak_val in Hval.
  split; [exact Hpk |]. split; [exact Hval |].
  assert (Hwhere : forall j, Spec.is_peak a sr j = true ->
                             In (j, nth j a nan) l1
                             \/ j = peak_idx
                             \/ In (j, nth j a nan) l2).
  { intros j Hj.
    assert (Hin : In (j, nth j a nan) (p :: ps))
      by (rewrite <- Hpeaks; apply in_find_peaks; auto).
    rewrite Heq in Hin. apply in_app_or in Hin.
    destruct Hin as [Hin | [Hin | Hin]]; [now left | | now right; right].
    right. left. unfold peak_idx. now rewrite Hin. }
  split.
  - intros j Hj. destruct (Hwhere j Hj) as [Hin | [-> | Hin]].
    + apply ltb_leb. exact (H1 _ Hin).
    + rewrite <- Hval. apply leb_refl. apply Hnum, Hbest.
    + exact (H2 _ Hin).
  - intros j Hj Hlt. destruct (Hwhere j Hj) as [Hin | [-> | Hin]].
    + exact (H1 _ Hin).
    + lia.
    + rewrite <- Hpeaks in Heq.
      pose proof (peaks_increase a sr l1 l2 _ Heq _ Hin) as Hlater.
      cbn [fst] in Hlater. fold peak_idx in Hlater. lia.
Qed.

Lemma first_maximal_peak_witness :
  find_peaks tied_autocorr 22050 = tied_first :: tied_rest
  /\ max_by_value tied_first tied_rest = tied_first
  /\ forall j, Spec.is_peak tied_autocorr 22050 j = true ->
                (j < fst (max_by_value tied_first tied_rest))%nat ->
                PrimFloat.ltb (nth j tied_autocorr nan)
                              (snd (max_by_value tied_first tied_rest))
                = true.
Proof.
  split; [vm_compute; reflexivity |]. split; [vm_compute; reflexivity |].
  assert (Hpeaks : find_peaks tied_autocorr 22050 = tied_first :: tied_rest)
    by (vm_compute; reflexivity).
  exact (proj2 (proj2 (proj2 (first_maximal_peak _ _ _ _ Hpeaks)))).
Defined.

(** ** Extraction: what fails softly and what does not *)

Section Extraction.

Variable lib : Externals.
Variable self : VoiceClassifier.
Variable y : list float.
Variable sr : Z.

Hypothesis Hnonempty : y <> [].

Lemma preemphasis_nonempty : exists y_proc, preemphasis y 0.97 = Ok y_proc.
Proof.
  unfold preemphasis. destruct y as [| x0 rest]; [congruence |].
  cbn [Np.first bind]. eauto.
Qed.

(** The features, once the two unguarded library calls have returned. *)
Lemma extract_features_unguarded (flat : list (list float))
    (row : list float) (rows : list (list float)) :
  librosa_feature_spectral_flatness lib y = Ok flat ->
  librosa_feature_rms lib y None None = Ok (row :: rows) ->
  exists y_proc f,
    preemphasis y 0.97 = Ok y_proc
    /\ extract_features lib self y sr = Ok f
    /\ pitch_std f = fst (fst (pitch_statistics lib y_proc sr))
    /\ pitch_mean f = snd (fst (pitch_statistics lib y_proc sr))
    /\ jitter f
       = calculate_jitter lib y sr
           (if (0 <? List.length (snd (pitch_statistics lib y_proc sr)))%nat
            then snd (pitch_statistics lib y_proc sr) else [])
    /\ shimmer f = calculate_shimmer lib y sr
    /\ hnr f = calculate_hnr lib y sr
    /\ spectral_flatness f = np_mean lib (List.concat flat).
Proof.
  intros Hflat Hrms.
  destruct preemphasis_nonempty as [y_proc Hpre].
  exists y_proc.
  unfold extract_features. rewrite Hpre. cbn [bind].
  destruct (pitch_statistics lib y_proc sr) as [[ps pm] f0].
  rewrite Hflat. cbn [bind]. rewrite Hrms. cbn [bind Np.first].
  eexists. split; [reflexivity |]. split; [reflexivity |].
  cbn. repeat split; reflexivity.
Qed.

End Extraction.

Lemma extraction_fail_soft_helper (lib : Externals) (self : VoiceClassifier)
    (y : list float) (sr : Z) (flat : list (list float))
    (row : list float) (rows : list (list float)) :
  y <> [] ->
  librosa_feature_spectral_flatness lib y = Ok flat ->
  librosa_feature_rms lib y None None = Ok (row :: rows) ->
  exists r, predict lib self y sr = Ok r.
Proof.
  intros Hy Hflat Hrms.
  destruct (extract_features_unguarded lib self y sr Hy flat row rows Hflat Hrms)
    as (y_proc & f & _ & Hf & _).
  exists (predict_features self f).
  unfold predict. rewrite Hf. reflexivity.
Qed.

(** On a non-empty signal, extraction and classification return as soon as
    [spectral_flatness] and the energy with default framing return:
    whatever the pitch tracker, the note conversion, the framed energy and
    the autocorrelation do, raising included, no exception escapes. *)
Theorem extraction_fail_soft (lib : Externals) (self : VoiceClassifier)
    (y : list float) (sr : Z) (flat : list (list float))
    (row : list float) (rows : list (list float)) :
  y <> [] ->
  librosa_feature_spectral_flatness lib y = Ok flat ->
  librosa_feature_rms lib y None None = Ok (row :: rows) ->
  exists f,
    extract_features lib self y sr = Ok f
    /\ predict lib self y sr = Ok (predict_features self f).
Proof.
  intros Hy Hflat Hrms.
  destruct (extract_features_unguarded lib self y sr Hy flat row rows Hflat Hrms)
    as (y_proc & f & _ & Hf & _).
  exists f. split; [exact Hf |].
  unfold predict. rewrite Hf. reflexivity.
Qed.

Lemma extraction_fail_soft_witness :
  exists f,
    extract_features failing_trackers_lib classifier short_silence 22050 = Ok f
    /\ predict failing_trackers_lib classifier short_silence 22050
       = Ok (predict_features classifier f).
Proof.
  apply (extraction_fail_soft failing_trackers_lib classifier short_silence
           22050 [repeat 1 1] (repeat 0 1) []).
  - discriminate.
  - vm_compute. reflexivity.
  - vm_compute. reflexivity.
Defined.

(** The unguarded steps do abort: an empty signal, a failure of
    [spectral_flatness], a failure of the energy with default framing, or an
    energy array without rows each make [predict] raise, the library's own
    exception where there is one. *)
Theorem unguarded_failures_propagate (lib : Externals)
    (self : VoiceClassifier) (y : list float) (sr : Z) :
  match y with
  | [] => exists e, predict lib self y sr = Raise e
  | _ :: _ =>
      match librosa_feature_spectral_flatness lib y with
      | Raise e => predict lib self y sr = Raise e
      | Ok _ =>
          match librosa_feature_rms lib y None None with
          | Raise e => predict lib self y sr = Raise e
          | Ok [] => exists e, predict lib self y sr = Raise e
          | Ok (_ :: _) => exists r, predict lib self y sr = Ok r
          end
      end
  end.
Proof.
  destruct y as [| x0 rest] eqn:Hy.
  - unfold predict, extract_features, preemphasis. cbn. eauto.
  - rewrite <- Hy.
    assert (Hne : y <> []) by (rewrite Hy; discriminate).
    destruct (preemphasis_nonempty y Hne) as [y_proc Hpre].
    destruct (librosa_feature_spectral_flatness lib y) as [flat | e] eqn:Hflat.
    + destruct (librosa_feature_rms lib y None None) as [[| row rows] | e]
        eqn:Hrms.
      * unfold predict, extract_features. rewrite Hpre. cbn [bind].
        destruct (pitch_statistics lib y_proc sr) as [[ps pm] f0].
        rewrite Hflat. cbn [bind]. rewrite Hrms. cbn. eauto.
      * destruct (extraction_fail_soft_helper lib self y sr flat row rows
                    Hne Hflat Hrms) as [r Hr]. eauto.
      * unfold predict, extract_features. rewrite Hpre. cbn [bind].
        destruct (pitch_statistics lib y_proc sr) as [[ps pm] f0].
        rewrite Hflat. cbn [bind]. rewrite Hrms. reflexivity.
    + unfold predict, extract_features. rewrite Hpre. cbn [bind].
      destruct (pitch_statistics lib y_proc sr) as [[ps pm] f0].
      rewrite Hflat. reflexivity.
Qed.

Lemma extract_features_inversion (lib : Externals) (self : VoiceClassifier)
    (y : list float) (sr : Z) (f : FeatureSet) :
  extract_features lib self y sr = Ok f ->
  y <> []
  /\ exists flat row rows,
       librosa_feature_spectral_flatness lib y = Ok flat
       /\ librosa_feature_rms lib y None None = Ok (row :: rows).
Proof.
  intros Hf.
  destruct y as [| x0 rest] eqn:Hy; [discriminate |].
  rewrite <- Hy in *.
  assert (Hne : y <> []) by (rewrite Hy; discriminate).
  split; [exact Hne |].
  destruct (preemphasis_nonempty y Hne) as [y_proc Hpre].
  unfold extract_features in Hf. rewrite Hpre in Hf. cbn [bind] in Hf.
  destruct (pitch_statistics lib y_proc sr) as [[ps pm] f0].
  destruct (librosa_feature_spectral_flatness lib y) as [flat |];
    [| discriminate].
  cbn [bind] in Hf.
  destruct (librosa_feature_rms lib y None None) as [[| row rows] |];
    try discriminate.
  eauto.
Qed.

Lemma pitch_statistics_on_failure (lib : Externals) (y_proc : list float)
    (sr : Z) :
  (forall fmin fmax,
      librosa_note_to_hz lib "C2" = Ok fmin ->
      librosa_note_to_hz lib "C7" = Ok fmax ->
      exists e, librosa_pyin lib y_proc fmin fmax sr 2048 = Raise e) ->
  pitch_statistics lib y_proc sr = (0, 0, []).
Proof.
  intros Hpyin. unfold pitch_statistics.
  destruct (librosa_note_to_hz lib "C2") as [fmin |]; [| reflexivity].
  destruct (librosa_note_to_hz lib "C7") as [fmax |]; [| reflexivity].
  cbn [bind]. destruct (Hpyin fmin fmax eq_refl eq_refl) as [e ->].
  reflexivity.
Qed.

(** The features when the pitch block of a returning extraction raised. *)
Lemma features_on_pitch_failure (lib : Externals) (self : VoiceClassifier)
    (y : list float) (sr : Z) (f : FeatureSet) :
  extract_features lib self y sr = Ok f ->
  (forall y_proc fmin fmax,
      preemphasis y 0.97 = Ok y_proc ->
      librosa_note_to_hz lib "C2" = Ok fmin ->
      librosa_note_to_hz lib "C7" = Ok fmax ->
      exists e, librosa_pyin lib y_proc fmin fmax sr 2048 = Raise e) ->
  pitch_std f = 0 /\ pitch_mean f = 0 /\ jitter f = 0.
Proof.
  intros Hf Hpyin.
  destruct (extract_features_inversion lib self y sr f Hf)
    as (Hne & flat & row & rows & Hflat & Hrms).
  destruct (extract_features_unguarded lib self y sr Hne flat row rows Hflat Hrms)
    as (y_proc & f' & Hpre & Hf' & Hps & Hpm & Hj & _).
  rewrite Hf in Hf'. injection Hf' as <-.
  rewrite (pitch_statistics_on_failure lib y_proc sr
             (fun fmin fmax => Hpyin y_proc fmin fmax Hpre))
    in Hps, Hpm, Hj.
  repeat split; assumption.
Qed.

(** The guarded steps have their own defaults.  Whenever the extraction
    returns: if [pyin] raises on the pre-emphasised clip (with the bounds
    [note_to_hz] returned), [pitch_std], [pitch_mean] and [jitter] are 0.0,
    the jitter because the pitch track is replaced by an empty array; if
    the autocorrelation raises on the clip, [hnr] is 10.0.  Either failure
    leaves [shimmer] and [hnr] as [calculate_shimmer] and [calculate_hnr]
    compute them on the clip. *)
Theorem fallback_defaults (lib : Externals) (self : VoiceClassifier)
    (y : list float) (sr : Z) (f : FeatureSet) :
  extract_features lib self y sr = Ok f ->
  ((forall y_proc fmin fmax,
       preemphasis y 0.97 = Ok y_proc ->
       librosa_note_to_hz lib "C2" = Ok fmin ->
       librosa_note_to_hz lib "C7" = Ok fmax ->
       exists e, librosa_pyin lib y_proc fmin fmax sr 2048 = Raise e) ->
   pitch_std f = 0 /\ pitch_mean f = 0 /\ jitter f = 0)
  /\ ((exists e, librosa_autocorrelate lib y = Raise e) -> hnr f = 10)
  /\ shimmer f = calculate_shimmer lib y sr
  /\ hnr f = calculate_hnr lib y sr.
Proof.
  intros Hf.
  split; [apply (features_on_pitch_failure lib self y sr f Hf) |].
  destruct (extract_features_inversion lib self y sr f Hf)
    as (Hne & flat & row & rows & Hflat & Hrms).
  destruct (extract_features_unguarded lib self y sr Hne flat row rows Hflat Hrms)
    as (y_proc & f' & _ & Hf' & _ & _ & _ & Hs & Hh & _).
  rewrite Hf in Hf'. injection Hf' as <-.
  split; [| split; assumption].
  intros [e He]. rewrite Hh. unfold calculate_hnr. rewrite He. reflexivity.
Qed.

Lemma fallback_defaults_witness :
  exists f,
    extract_features failing_trackers_lib classifier short_silence 22050 = Ok f
    /\ pitch_std f = 0 /\ pitch_mean f = 0 /\ jitter f = 0 /\ hnr f = 10.
Proof.
  destruct (extract_features failing_trackers_lib classifier short_silence 22050)
    as [f |] eqn:Hf; [| vm_compute in Hf; discriminate].
  exists f. split; [reflexivity |].
  destruct (fallback_defaults failing_trackers_lib classifier short_silence
              22050 f Hf) as (Hpitch & Hhnr & _).
  destruct Hpitch as (Hps & Hpm & Hj).
  { intros y_proc fmin fmax _ _ _. eexists. reflexivity. }
  repeat split; try assumption.
  apply Hhnr. eexists. reflexivity.
Defined.

Lemma join_two_then_rest (sep n1 n2 : string) (l : list string) :
  exists rest,
    Py.join sep (firstn 3 (n1 :: n2 :: l)) = (n1 ++ sep ++ n2 ++ rest)%string.
Proof.
  destruct l as [| n3 l'].
  - exists ""%string. cbn [firstn Py.join].
    assert (Hnil : forall s : string, (s ++ "")%string = s)
      by (induction s as [| c s IH]; cbn; [| rewrite IH]; reflexivity).
    now rewrite Hnil.
  - exists (sep ++ n3)%string. reflexivity.
Qed.

Lemma notes_of_zero (f : FeatureSet) :
  pitch_std f = 0 -> jitter f = 0 ->
  note_monotone f = "Monotone pitch pattern (std: 0.0Hz)"%string
  /\ note_jitter f = "Perfect pitch timing (jitter: 0.000)"%string.
Proof.
  intros Hps Hj. unfold note_monotone, note_jitter. rewrite Hps, Hj.
  split; vm_compute; reflexivity.
Qed.

(** The verdict on features that read no pitch variation and no jitter. *)
Lemma no_pitch_verdict (f : FeatureSet) :
  pitch_std f = 0 -> jitter f = 0 ->
  label_of (predict_features classifier f) = AI_GENERATED
  /\ PrimFloat.leb 0.82 (confidence_of (predict_features classifier f)) = true
  /\ PrimFloat.leb (confidence_of (predict_features classifier f)) 0.99 = true
  /\ exists rest,
       explanation_of (predict_features classifier f)
       = ("Monotone pitch pattern (std: 0.0Hz) | Perfect pitch timing (jitter: 0.000)"
          ++ rest)%string.
Proof.
  intros Hps Hj.
  assert (Hp : PrimFloat.ltb (pitch_std f) 20.0 = true)
    by (rewrite Hps; reflexivity).
  assert (Hj' : PrimFloat.ltb (jitter f) 0.03 = true)
    by (rewrite Hj; reflexivity).
  assert (Hverdict :
            label_of (decide classifier f) = AI_GENERATED
            /\ PrimFloat.leb 0.82 (Py.round (confidence_of (decide classifier f)) 2)
               = true
            /\ PrimFloat.leb (Py.round (confidence_of (decide classifier f)) 2) 0.99
               = true).
  { rewrite confidence_by_label, decide_label, ai_probability_of_score.
    unfold_rules. rewrite Hp, Hj'.
    destruct (PrimFloat.ltb (shimmer f) 0.05),
      (PrimFloat.ltb 20.0 (hnr f)), (PrimFloat.ltb (hnr f) 10.0),
      (PrimFloat.ltb (spectral_flatness f) 0.01),
      (PrimFloat.ltb (silence_ratio f) 0.02);
      repeat split; vm_compute; reflexivity. }
  destruct Hverdict as (Hlabel & Hlo & Hhi).
  rewrite predict_label, predict_confidence, predict_explanation.
  repeat (split; [assumption |]).
  rewrite (explanation_when_ai f Hlabel).
  unfold table_notes, Spec.positive_notes. rewrite Hp, Hj'.
  cbn [app].
  destruct (notes_of_zero f Hps Hj) as [-> ->].
  match goal with
  | |- context [firstn 3 (?n1 :: ?n2 :: ?l)] =>
      destruct (join_two_then_rest " | " n1 n2 l) as [rest ->]
  end.
  exists rest. reflexivity.
Qed.

(** A failing pitch tracker decides the verdict.  Whenever [predict]
    returns although [pyin] raised on the pre-emphasised clip, the clip is
    classified [AI_GENERATED] with a confidence between 0.82 and 0.99,
    whatever the other features are, and the explanation opens with the
    monotone-pitch and the perfect-timing notes of the default values. *)
Theorem pitch_failure_verdict (lib : Externals) (y : list float) (sr : Z)
    (r : Label * float * string) :
  predict lib classifier y sr = Ok r ->
  (forall y_proc fmin fmax,
      preemphasis y 0.97 = Ok y_proc ->
      librosa_note_to_hz lib "C2" = Ok fmin ->
      librosa_note_to_hz lib "C7" = Ok fmax ->
      exists e, librosa_pyin lib y_proc fmin fmax sr 2048 = Raise e) ->
  label_of r = AI_GENERATED
  /\ PrimFloat.leb 0.82 (confidence_of r) = true
  /\ PrimFloat.leb (confidence_of r) 0.99 = true
  /\ exists rest,
       explanation_of r
       = ("Monotone pitch pattern (std: 0.0Hz) | Perfect pitch timing (jitter: 0.000)"
          ++ rest)%string.
Proof.
  intros Hr Hpyin. unfold predict in Hr.
  destruct (extract_features lib classifier y sr) as [f |] eqn:Hf;
    [| discriminate].
  cbn [bind] in Hr. injection Hr as <-.
  destruct (features_on_pitch_failure lib classifier y sr f Hf Hpyin)
    as (Hps & _ & Hj).
  apply no_pitch_verdict; assumption.
Qed.

Lemma pitch_failure_verdict_witness :
  label_of (AI_GENERATED, 0.99, three_notes) = AI_GENERATED
  /\ PrimFloat.leb 0.82 (confidence_of (AI_GENERATED, 0.99, three_notes)) = true
  /\ PrimFloat.leb (confidence_of (AI_GENERATED, 0.99, three_notes)) 0.99 = true
  /\ exists rest,
       explanation_of (AI_GENERATED, 0.99, three_notes)
       = ("Monotone pitch pattern (std: 0.0Hz) | Perfect pitch timing (jitter: 0.000)"
          ++ rest)%string.
Proof.
  apply (pitch_failure_verdict failing_trackers_lib short_silence 22050).
  - vm_compute. reflexivity.
  - intros y_proc fmin fmax _ _ _. eexists. reflexivity.
Defined.

(** ** Jitter and shimmer of a steady track *)

Lemma sub_self (x : float) : finite x = true -> x - x = 0.
Proof.
  unfold finite. intros Hfin.
  apply Prim2SF_inj. rewrite sub_spec. unfold SF64sub.
  destruct (Prim2SF x) as [s | s | | s m e]; try discriminate.
  - destruct s; reflexivity.
  - cbn [SFsub]. rewrite Z.sub_diag. reflexivity.
Qed.

Lemma zero_div_positive (m : float) : PrimFloat.ltb 0 m = true -> 0 / m = 0.
Proof.
  rewrite ltb_spec. intros Hpos.
  apply Prim2SF_inj. rewrite div_spec. unfold SF64div.
  change (Prim2SF 0) with (S754_zero false) in *.
  destruct (Prim2SF m) as [s | s | | s mm e]; try discriminate;
    destruct s; try discriminate; reflexivity.
Qed.

Lemma diff_repeat_succ (p : float) (n : nat) :
  Np.diff (repeat p (S n)) = repeat (p - p) n.
Proof.
  induction n as [| n IH]; [reflexivity |].
  change (Np.diff (repeat p (S (S n))))
    with ((p - p) :: Np.diff (repeat p (S n))).
  rewrite IH. reflexivity.
Qed.

Lemma diff_repeat (p : float) (n : nat) :
  Np.diff (repeat p n) = repeat (p - p) (n - 1).
Proof.
  destruct n as [| n]; [reflexivity |].
  rewrite diff_repeat_succ. cbn. now rewrite Nat.sub_0_r.
Qed.

(** The relative variation of a constant sequence, as both functions
    compute it: zero. *)
Lemma variation_of_constant (lib : Externals) (p : float) (n : nat) :
  finite p = true ->
  np_mean lib (repeat 0 (n - 1)) = 0 ->
  (if Py.gt (np_mean lib (repeat p n)) 0
   then np_mean lib (Np.abs (Np.diff (repeat p n))) / np_mean lib (repeat p n)
   else 0) = 0.
Proof.
  intros Hfin Hmean. unfold Py.gt.
  destruct (PrimFloat.ltb 0 (np_mean lib (repeat p n))) eqn:Hpos;
    [| reflexivity].
  rewrite diff_repeat, (sub_self p Hfin). unfold Np.abs.
  rewrite map_repeat. change (PrimFloat.abs 0) with 0.
  rewrite Hmean. now apply zero_div_positive.
Qed.

(** A pitch track whose voiced frames all carry the same frequency has
    jitter 0.0, given that the mean of zeros is zero: unvoiced frames (NaN
    or non-positive values) are left out, and the consecutive periods do not
    differ. *)
Theorem steady_pitch_zero_jitter (lib : Externals) (y f0 : list float)
    (sr : Z) (c : float) (n : nat) :
  filter (fun x => Py.gt x 0) f0 = repeat c n ->
  finite (1.0 / c) = true ->
  np_mean lib (repeat 0 (n - 1)) = 0 ->
  calculate_jitter lib y sr f0 = 0.
Proof.
  intros Hvoiced Hfin Hmean. unfold calculate_jitter.
  rewrite Hvoiced, repeat_length.
  destruct (n <? 2)%nat; cbn [catch_default]; [reflexivity |].
  rewrite map_repeat. now apply variation_of_constant.
Qed.

Lemma steady_pitch_zero_jitter_witness :
  calculate_jitter Reference.lib short_silence 22050 steady_f0 = 0.
Proof.
  apply (steady_pitch_zero_jitter Reference.lib short_silence steady_f0
           22050 100 3); vm_compute; reflexivity.
Defined.

(** A signal whose framed energy is the same in every frame has shimmer
    0.0, given that the mean of zeros is zero. *)
Theorem steady_energy_zero_shimmer (lib : Externals) (y : list float)
    (sr : Z) (r : float) (n : nat) (rows : list (list float)) :
  librosa_feature_rms lib y (Some 2048%Z) (Some 512%Z)
  = Ok (repeat r n :: rows) ->
  finite r = true ->
  np_mean lib (repeat 0 (n - 1)) = 0 ->
  calculate_shimmer lib y sr = 0.
Proof.
  intros Hrms Hfin Hmean. unfold calculate_shimmer.
  rewrite Hrms. cbn [bind Np.first]. rewrite repeat_length.
  destruct (n <? 2)%nat; cbn [catch_default]; [reflexivity |].
  now apply variation_of_constant.
Qed.

Lemma steady_energy_zero_shimmer_witness :
  calculate_shimmer constant_energy_lib short_silence 22050 = 0.
Proof.
  apply (steady_energy_zero_shimmer constant_energy_lib short_silence 22050
           0.5 4 []); vm_compute; reflexivity.
Defined.

(** ** Decoding and the endpoint *)

Lemma decode_audio_rate_and_length (io : AudioBackend)
    (base64_string : string) (data : list float) (sr : Z) :
  decode_audio io base64_string = Ok (data, sr) ->
  sr = 22050%Z /\ (11025 <= Z.of_nat (List.length data))%Z.
Proof.
  unfold decode_audio, try_except.
  destruct (b64decode io base64_string) as [audio_bytes |];
    cbn [bind]; [| discriminate].
  destruct (from_file io audio_bytes "mp3") as [seg1 |];
    cbn [bind]; [| discriminate].
  destruct (set_frame_rate io seg1 22050) as [seg2 |];
    cbn [bind]; [| discriminate].
  destruct (set_channels io seg2 1) as [seg3 |];
    cbn [bind]; [| discriminate].
  destruct (get_array_of_samples io seg3) as [samples |];
    cbn [bind]; [| discriminate].
  match goal with
  | |- match bind ?d _ with _ => _ end = _ -> _ =>
      destruct d as [x |]; cbn [bind]; [| discriminate]
  end.
  rewrite min_length_test.
  destruct (Z.ltb_spec (Z.of_nat (List.length x)) 11025); [discriminate |].
  intros [= <- <-]. split; [reflexivity | assumption].
Qed.

(** A successful decoding returns the rate 22050 and at least 11025
    samples, so the pre-emphasis that [predict] starts with cannot fail on
    it. *)
Theorem decode_audio_postcondition (io : AudioBackend) (base64_string : string)
    (data : list float) (sr : Z) :
  decode_audio io base64_string = Ok (data, sr) ->
  sr = 22050%Z
  /\ (11025 <= Z.of_nat (List.length data))%Z
  /\ exists y_proc, preemphasis data 0.97 = Ok y_proc.
Proof.
  intros Hdec.
  destruct (decode_audio_rate_and_length io base64_string data sr Hdec)
    as [Hsr Hlen].
  split; [exact Hsr |]. split; [exact Hlen |].
  apply preemphasis_nonempty. destruct data; [cbn in Hlen; lia | discriminate].
Qed.

Lemma decode_audio_postcondition_witness :
  exists data,
    decode_audio (Reference.zero_backend 11025) "clip" = Ok (data, 22050%Z)
    /\ (11025 <= Z.of_nat (List.length data))%Z
    /\ exists y_proc, preemphasis data 0.97 = Ok y_proc.
Proof.
  destruct (decode_audio (Reference.zero_backend 11025) "clip")
    as [[data sr] | e] eqn:Hdec; [| vm_compute in Hdec; discriminate].
  destruct (decode_audio_postcondition _ _ _ _ Hdec) as (-> & Hlen & Hpre).
  exists data. auto.
Defined.

(** Whatever goes wrong while decoding, [decode_audio] raises a
    [ValueError] whose message is "Failed to process audio: " followed by
    the text of the original exception; in particular for text that is not
    base64 and for bytes that are not an audio file. *)
Theorem decode_audio_wraps_failures (io : AudioBackend) (base64_string : string) :
  (forall e, decode_audio io base64_string = Raise e ->
             exists m, e = ValueError ("Failed to process audio: " ++ m))
  /\ match b64decode io base64_string with
     | Raise e0 =>
         decode_audio io base64_string
         = Raise (ValueError ("Failed to process audio: " ++ exn_str e0))
     | Ok audio_bytes =>
         match from_file io audio_bytes "mp3" with
         | Raise e0 =>
             decode_audio io base64_string
             = Raise (ValueError ("Failed to process audio: " ++ exn_str e0))
         | Ok _ => True
         end
     end.
Proof.
  split.
  - intros e. unfold decode_audio, try_except.
    match goal with
    | |- match ?body with _ => _ end = _ -> _ => destruct body as [r | e0]
    end; [discriminate |].
    intros [= <-]. eexists. reflexivity.
  - unfold decode_audio, try_except.
    destruct (b64decode io base64_string) as [audio_bytes | e0];
      cbn [bind]; [| reflexivity].
    destruct (from_file io audio_bytes "mp3") as [seg1 | e0];
      cbn [bind]; [exact I | reflexivity].
Qed.



Lemma rounded_confidence_range (f : FeatureSet) :
  PrimFloat.leb 0.5 (confidence_of (predict_features classifier f)) = true
  /\ PrimFloat.leb (confidence_of (predict_features classifier f)) 0.99 = true.
Proof.
  rewrite predict_confidence, decide_confidence.
  apply (score_cases
           (fun s =>
              PrimFloat.leb 0.5 (Py.round (confidence_of_score s) 2) = true
              /\ PrimFloat.leb (Py.round (confidence_of_score s) 2) 0.99 = true)).
  each_score.
Qed.

Lemma decide_explanation_nonempty (f : FeatureSet) :
  explanation_of (decide classifier f) <> ""%string.
Proof.
  destruct (label_of (decide classifier f)) eqn:Hlabel.
  - rewrite (explanation_when_ai f Hlabel).
    destruct (table_notes_nonempty f) as (n & rest & Hnotes).
    rewrite Hnotes. cbn [firstn].
    apply join_nonempty, (table_notes_head_nonempty f n rest Hnotes).
  - revert Hlabel. unfold decide, Py.gt.
    destruct (PrimFloat.ltb 0.5 (ai_probability classifier f));
      [discriminate |].
    intros _. unfold explanation_of. cbn [snd].
    destruct (human_traits classifier f); discriminate.
Qed.

(** A success response only follows the right key and a decoded clip of at
    least 11025 samples; it echoes the language and carries the
    classification "AI_GENERATED" or "HUMAN", a confidence score between 0.5
    and 0.99 and a non-empty explanation. *)
Theorem success_response_shape (lib : Externals) (io : AudioBackend)
    (API_KEY : string) (x_api_key : option string)
    (language audioBase64 lang classification explanation : string)
    (confidenceScore : float) :
  detect_voice lib io API_KEY x_api_key language audioBase64
  = Success lang classification confidenceScore explanation ->
  x_api_key = Some API_KEY
  /\ lang = language
  /\ (classification = "AI_GENERATED"%string \/ classification = "HUMAN"%string)
  /\ PrimFloat.leb 0.5 confidenceScore = true
  /\ PrimFloat.leb confidenceScore 0.99 = true
  /\ explanation <> ""%string
  /\ exists y,
       decode_audio io audioBase64 = Ok (y, 22050%Z)
       /\ (11025 <= Z.of_nat (List.length y))%Z.
Proof.
  unfold detect_voice.
  destruct x_api_key as [k |]; [| discriminate].
  destruct (String.eqb_spec k API_KEY) as [-> | Hne]; [| discriminate].
  cbn [negb].
  destruct (decode_audio io audioBase64) as [[y sr] | e] eqn:Hdec;
    cbn [bind]; [| destruct e; discriminate].
  destruct (decode_audio_rate_and_length io audioBase64 y sr Hdec) as [-> Hlen].
  unfold predict.
  destruct (extract_features lib classifier y 22050) as [f | e];
    cbn [bind]; [| destruct e; discriminate].
  pose proof (rounded_confidence_range f) as [Hlo Hhi].
  pose proof (decide_explanation_nonempty f) as Hex.
  rewrite <- predict_explanation in Hex.
  destruct (predict_features classifier f) as [[l c] ex].
  cbn [confidence_of explanation_of fst snd] in Hlo, Hhi, Hex.
  intros [= <- <- <- <-].
  split; [reflexivity |]. split; [reflexivity |].
  split; [destruct l; auto |].
  repeat (split; [assumption |]). eauto.
Qed.

Lemma success_response_shape_witness :
  detect_voice failing_trackers_lib (Reference.zero_backend 11025) "secret"
    (Some "secret"%string) "English" "clip"
  = Success "English" "AI_GENERATED" 0.99
      "Monotone pitch pattern (std: 0.0Hz) | Perfect pitch timing (jitter: 0.000) | Uniform amplitude (shimmer: 0.000)"
  /\ PrimFloat.leb 0.5 0.99 = true.
Proof.
  assert (H : detect_voice failing_trackers_lib (Reference.zero_backend 11025)
                "secret" (Some "secret"%string) "English" "clip"
              = Success "English" "AI_GENERATED" 0.99
                  "Monotone pitch pattern (std: 0.0Hz) | Perfect pitch timing (jitter: 0.000) | Uniform amplitude (shimmer: 0.000)")
    by (vm_compute; reflexivity).
  split; [exact H |].
  exact (proj1 (proj2 (proj2 (proj2 (success_response_shape _ _ _ _ _ _ _ _ _ _ H))))).
Defined.

(** ** Normalisation of 16-bit samples *)

Lemma in_z_range (n : nat) (lo s : Z) :
  (lo <= s < lo + Z.of_nat n)%Z -> In s (z_range lo n).
Proof.
  revert lo. induction n as [| n IH]; intros lo Hs; [lia |].
  cbn [z_range]. destruct (Z.eq_dec lo s) as [-> | Hne]; [now left |].
  right. apply IH. lia.
Qed.

Lemma int16_checked (check : Z -> bool) :
  forallb check (z_range (-32768) (Z.to_nat 65536)) = true ->
  forall s, (-32768 <= s <= 32767)%Z -> check s = true.
Proof.
  intros Hall s Hs. rewrite forallb_forall in Hall.
  apply Hall, in_z_range. lia.
Qed.

(** Samples of 16 bits are normalised into the interval from -1.0
    (included) to 1.0 (excluded): each is divided by 32768 without rounding
    error, so multiplying back restores it. *)
Theorem normalise_int16_range (samples : list Z) :
  Forall (fun s => (-32768 <= s <= 32767)%Z) samples ->
  List.length (normalise samples 32768.0) = List.length samples
  /\ Forall (fun v => PrimFloat.leb (-1) v = true /\ PrimFloat.ltb v 1 = true)
            (normalise samples 32768.0)
  /\ Forall2 (fun s v => v * 32768.0 = Np.astype_float32 s)
             samples (normalise samples 32768.0).
Proof.
  intros Hrange. split; [apply length_normalise |].
  assert (Hcheck :
            forall s, (-32768 <= s <= 32767)%Z ->
              (let v := Np.to_float32 (Np.astype_float32 s / 32768.0) in
               PrimFloat.leb (-1) v && PrimFloat.ltb v 1
               && PrimFloat.Leibniz.eqb (v * 32768.0) (Np.astype_float32 s))
              = true).
  { apply (int16_checked
             (fun s =>
                let v := Np.to_float32 (Np.astype_float32 s / 32768.0) in
                PrimFloat.leb (-1) v && PrimFloat.ltb v 1
                && PrimFloat.Leibniz.eqb (v * 32768.0) (Np.astype_float32 s))).
    vm_compute. reflexivity. }
  unfold normalise. split.
  - apply Forall_map. apply (Forall_impl _ (P := fun s => (-32768 <= s <= 32767)%Z));
      [| exact Hrange].
    intros s Hs. specialize (Hcheck s Hs). cbv zeta in Hcheck.
    rewrite !andb_true_iff in Hcheck. tauto.
  - induction Hrange as [| s samples Hs _ IH]; [constructor |].
    cbn [map]. constructor; [| exact IH].
    specialize (Hcheck s Hs). cbv zeta in Hcheck.
    rewrite !andb_true_iff in Hcheck. destruct Hcheck as [_ Heq].
    now apply FloatAxioms.Leibniz.eqb_spec.
Qed.

Lemma normalise_int16_range_witness :
  List.length (normalise int16_corners 32768.0) = List.length int16_corners
  /\ Forall (fun v => PrimFloat.leb (-1) v = true /\ PrimFloat.ltb v 1 = true)
            (normalise int16_corners 32768.0)
  /\ Forall2 (fun s v => v * 32768.0 = Np.astype_float32 s)
             int16_corners (normalise int16_corners 32768.0).
Proof.
  apply (normalise_int16_range int16_corners).
  unfold int16_corners. repeat constructor; lia.
Defined.

(** ** The verdict and the score *)

(** The verdict is [AI_GENERATED] exactly when the score exceeds 0.04.  A
    score that does not is at most 2.7755575615628914e-17, the rounding
    residue of [-0.15 - 0.15 + 0.2 + 0.1]; a balanced score (0, or that residue,
    which is positive) gives [HUMAN] with confidence 0.5. *)
Theorem verdict_threshold (f : FeatureSet) :
  let s := score (run_rules classifier f) in
  (label_of (predict_features classifier f) = AI_GENERATED
   <-> PrimFloat.ltb 0.04 s = true)
  /\ (PrimFloat.ltb 0.04 s = false ->
      PrimFloat.leb s 2.7755575615628914e-17 = true)
  /\ (PrimFloat.leb 0 s = true -> PrimFloat.ltb 0.04 s = false ->
      label_of (predict_features classifier f) = HUMAN
      /\ confidence_of (predict_features classifier f) = 0.5).
Proof.
  intros s. subst s.
  rewrite predict_label, predict_confidence.
  rewrite decide_label, decide_confidence, ai_probability_of_score.
  apply (score_cases
           (fun s =>
              ((if PrimFloat.ltb 0.5 (probability_of_score s)
                then AI_GENERATED else HUMAN) = AI_GENERATED
               <-> PrimFloat.ltb 0.04 s = true)
              /\ (PrimFloat.ltb 0.04 s = false ->
                  PrimFloat.leb s 2.7755575615628914e-17 = true)
              /\ (PrimFloat.leb 0 s = true -> PrimFloat.ltb 0.04 s = false ->
                  (if PrimFloat.ltb 0.5 (probability_of_score s)
                   then AI_GENERATED else HUMAN) = HUMAN
                  /\ Py.round (confidence_of_score s) 2 = 0.5))).
  repeat (constructor;
          [vm_compute;
           repeat split; intros;
           first [reflexivity | discriminate | congruence] |]).
  constructor.
Qed.

(** The pitch and jitter tests failing, the shimmer test passing and a low
    HNR leave a positive score, and the verdict is [HUMAN] all the same. *)
Lemma positive_score_human :
  PrimFloat.ltb 0
    (score (run_rules classifier
              {| pitch_std := 25; pitch_mean := 120; jitter := 0.5;
                 shimmer := 0; hnr := 5; spectral_flatness := 1;
                 silence_ratio := 1 |})) = true
  /\ predict_features classifier
       {| pitch_std := 25; pitch_mean := 120; jitter := 0.5;
          shimmer := 0; hnr := 5; spectral_flatness := 1;
          silence_ratio := 1 |}
     = (HUMAN, 0.5,
        "Natural speech characteristics: dynamic intonation, natural pitch variation"%string).
Proof. split; vm_compute; reflexivity. Qed.

(** ** More evidence never lowers the probability *)

Lemma score_by_tests (f : FeatureSet) :
  score (run_rules classifier f) = score_of_tests (tests_of f).
Proof.
  unfold score_of_tests, tests_of. unfold_rules.
  cbn [pitch_test jitter_test shimmer_test hnr_high_test hnr_low_test
       flatness_test silence_test].
  split_rules f; reflexivity.
Qed.

Lemma in_bools (b : bool) : In b [true; false].
Proof. destruct b; cbn; auto. Qed.

Lemma in_all_tests (t : Tests) : In t all_tests.
Proof.
  destruct t as [a b c d e g h]. unfold all_tests.
  apply in_flat_map. exists a. split; [apply in_bools |].
  apply in_flat_map. exists b. split; [apply in_bools |].
  apply in_flat_map. exists c. split; [apply in_bools |].
  apply in_flat_map. exists d. split; [apply in_bools |].
  apply in_flat_map. exists e. split; [apply in_bools |].
  apply in_flat_map. exists g. split; [apply in_bools |].
  apply in_map_iff. exists h. split; [reflexivity | apply in_bools].
Qed.

(** If every test that passes on [f] passes on [g] as well, and the HNR
    rule counts at least as much on [g], then neither the score nor the
    probability of [g] is below that of [f]: in binary64 arithmetic too, no
    rule ever counts against the evidence it tests for. *)
Theorem more_evidence_never_lowers (f g : FeatureSet) :
  at_least (tests_of f) (tests_of g) = true ->
  PrimFloat.leb (score (run_rules classifier f))
                (score (run_rules classifier g)) = true
  /\ PrimFloat.leb (ai_probability classifier f)
                   (ai_probability classifier g) = true.
Proof.
  intros Hle. rewrite !ai_probability_of_score, !score_by_tests.
  assert (Hall :
            forallb (fun t =>
              forallb (fun u =>
                implb (at_least t u)
                  (PrimFloat.leb (score_of_tests t) (score_of_tests u)
                   && PrimFloat.leb (probability_of_score (score_of_tests t))
                                    (probability_of_score (score_of_tests u))))
                all_tests) all_tests = true)
    by (vm_compute; reflexivity).
  rewrite forallb_forall in Hall.
  specialize (Hall _ (in_all_tests (tests_of f))).
  rewrite forallb_forall in Hall.
  specialize (Hall _ (in_all_tests (tests_of g))).
  rewrite Hle in Hall. cbn [implb] in Hall.
  now apply andb_true_iff in Hall.
Qed.

Lemma more_evidence_never_lowers_witness :
  PrimFloat.leb (score (run_rules classifier natural_features))
                (score (run_rules classifier synthetic_features)) = true
  /\ PrimFloat.leb (ai_probability classifier natural_features)
                   (ai_probability classifier synthetic_features) = true.
Proof.
  apply (more_evidence_never_lowers natural_features synthetic_features).
  vm_compute. reflexivity.
Defined.

(** ** The route as it is served: validation, rate limit, key, clip *)

Lemma lower_char_cases (c : ascii) :
  (lower_char c = "m"%char -> c = "m"%char \/ c = "M"%char)
  /\ (lower_char c = "p"%char -> c = "p"%char \/ c = "P"%char)
  /\ (lower_char c = "3"%char -> c = "3"%char).
Proof.
  destruct c as [[] [] [] [] [] [] [] []];
    repeat split; intros H; try discriminate H; auto.
Qed.

Lemma str_lower_mp3 (v : string) :
  str_lower v = "mp3"%string <-> In v accepted_formats.
Proof.
  split.
  - destruct v as [| a [| b [| c [| d rest]]]]; try discriminate.
    cbn [str_lower]. intros [= Ha Hb Hc].
    destruct (lower_char_cases a) as (Hm & _ & _).
    destruct (lower_char_cases b) as (_ & Hp & _).
    destruct (lower_char_cases c) as (_ & _ & H3).
    destruct (Hm Ha) as [-> | ->], (Hp Hb) as [-> | ->];
      rewrite (H3 Hc); cbn; auto.
  - intros Hin. cbn in Hin.
    destruct Hin as [<- | [<- | [<- | [<- | []]]]]; reflexivity.
Qed.

Lemma str_in_spec (x : string) (s : list string) :
  str_in x s = true <-> In x s.
Proof.
  unfold str_in. rewrite existsb_exists. split.
  - intros (y & Hy & Heq). apply String.eqb_eq in Heq. now subst.
  - intros Hx. exists x. split; [exact Hx | apply String.eqb_refl].
Qed.

Lemma format_supported (v : string) :
  str_in (str_lower v) SUPPORTED_FORMATS = true <-> In v accepted_formats.
Proof.
  rewrite str_in_spec, <- str_lower_mp3. cbn. intuition congruence.
Qed.

(** Which bodies pass validation.  The language must be one of the five
    names in their exact spelling; the format must be [mp3] in any letter
    case and is stored in lower case; the audio text is taken as it is. *)
Theorem accepted_payloads (language audioFormat audioBase64 : string) :
  match parse_payload language audioFormat audioBase64 with
  | Some payload =>
      In language SUPPORTED_LANGUAGES
      /\ In audioFormat accepted_formats
      /\ payload = {| language := language;
                      audioFormat := "mp3";
                      audioBase64 := audioBase64 |}
  | None =>
      ~ In language SUPPORTED_LANGUAGES \/ ~ In audioFormat accepted_formats
  end.
Proof.
  unfold parse_payload, validate_language, validate_format.
  destruct (str_in language SUPPORTED_LANGUAGES) eqn:Hl; cbn [negb].
  - destruct (str_in (str_lower audioFormat) SUPPORTED_FORMATS) eqn:Hf;
      cbn [negb].
    + apply str_in_spec in Hl. apply format_supported in Hf.
      repeat split; try assumption.
      f_equal. now apply str_lower_mp3.
    + right. intros Hin. apply format_supported in Hin. congruence.
  - left. intros Hin. apply str_in_spec in Hin. congruence.
Qed.

Lemma parse_payload_some (language audioFormat audioBase64 : string) :
  str_in language SUPPORTED_LANGUAGES
  && str_in (str_lower audioFormat) SUPPORTED_FORMATS = true ->
  exists f,
    parse_payload language audioFormat audioBase64
    = Some {| language := language;
              audioFormat := f;
              audioBase64 := audioBase64 |}.
Proof.
  intros Hvalid. apply andb_true_iff in Hvalid. destruct Hvalid as [Hl Hf].
  unfold parse_payload, validate_language, validate_format.
  rewrite Hl, Hf. cbn [negb]. eauto.
Qed.

Lemma parse_payload_none (language audioFormat audioBase64 : string) :
  str_in language SUPPORTED_LANGUAGES
  && str_in (str_lower audioFormat) SUPPORTED_FORMATS = false ->
  parse_payload language audioFormat audioBase64 = None.
Proof.
  intros Hvalid. unfold parse_payload, validate_language, validate_format.
  destruct (str_in language SUPPORTED_LANGUAGES); cbn [negb];
    [| reflexivity].
  cbn [andb] in Hvalid. rewrite Hvalid. reflexivity.
Qed.

(** The body of [detect_voice] with the right key, by what decoding and
    classification do. *)
Lemma body_with_key (lib : Externals) (io : AudioBackend)
    (API_KEY language audioBase64 : string) :
  match decode_audio io audioBase64 with
  | Raise e =>
      exists m, e = ValueError m
        /\ detect_voice lib io API_KEY (Some API_KEY) language audioBase64
           = Failure 400 m
  | Ok (y, sr) =>
      sr = 22050%Z
      /\ match predict lib classifier y 22050 with
         | Ok (l, c, ex) =>
             detect_voice lib io API_KEY (Some API_KEY) language audioBase64
             = Success language (label_str l) c ex
         | Raise (ValueError m) =>
             detect_voice lib io API_KEY (Some API_KEY) language audioBase64
             = Failure 400 m
         | Raise (OtherError _) =>
             detect_voice lib io API_KEY (Some API_KEY) language audioBase64
             = Failure 500 "Processing failed"
         end
  end.
Proof.
  unfold detect_voice. rewrite String.eqb_refl. cbn [negb].
  destruct (decode_audio io audioBase64) as [[y sr] | e] eqn:Hdec; cbn [bind].
  - destruct (decode_audio_rate_and_length io audioBase64 y sr Hdec) as [-> _].
    split; [reflexivity |].
    destruct (predict lib classifier y 22050) as [[[l c] ex] | [m | m]];
      reflexivity.
  - assert (Hv : exists m, e = ValueError m).
    { revert Hdec. unfold decode_audio, try_except.
      match goal with
      | |- match ?body with _ => _ end = _ -> _ => destruct body as [r | e0]
      end; [discriminate |].
      intros [= <-]. eexists. reflexivity. }
    destruct Hv as [m ->]. exists m. split; reflexivity.
Qed.

Lemma body_wrong_key (lib : Externals) (io : AudioBackend)
    (API_KEY : string) (x_api_key : option string)
    (language audioBase64 : string) :
  x_api_key <> Some API_KEY ->
  detect_voice lib io API_KEY x_api_key language audioBase64
  = Failure 401 "Invalid API key or malformed request".
Proof.
  intros Hkey. unfold detect_voice.
  destruct x_api_key as [k |]; [| reflexivity].
  destruct (String.eqb_spec k API_KEY) as [-> | Hne]; [congruence |].
  reflexivity.
Qed.

Lemma key_right_or_wrong (API_KEY : string) (x_api_key : option string) :
  x_api_key = Some API_KEY \/ x_api_key <> Some API_KEY.
Proof.
  destruct x_api_key as [k |]; [| right; discriminate].
  destruct (String.eqb_spec k API_KEY) as [-> | Hne];
    [now left | right; congruence].
Qed.

(** The status of every answer of the route, in the order in which the
    checks are made: 422 exactly for a body that fails validation; else 429
    exactly when the limiter refuses; else 401 exactly when the key is
    missing or wrong; else 400 exactly when decoding raises or [predict]
    raises a [ValueError], 500 exactly when [predict] raises anything else,
    and 200 exactly when [predict] returns.  There is no other status. *)
Theorem route_status_cases (lib : Externals) (io : AudioBackend)
    (exceeded : option string) (API_KEY : string) (x_api_key : option string)
    (language audioFormat audioBase64 : string) :
  let status :=
    status_code_of
      (voice_detection_route lib io exceeded API_KEY x_api_key
         language audioFormat audioBase64) in
  let valid :=
    str_in language SUPPORTED_LANGUAGES
    && str_in (str_lower audioFormat) SUPPORTED_FORMATS in
  let reached :=
    valid = true /\ exceeded = None /\ x_api_key = Some API_KEY in
  (status = 422%Z <-> valid = false)
  /\ (status = 429%Z <-> valid = true /\ exceeded <> None)
  /\ (status = 401%Z
      <-> valid = true /\ exceeded = None /\ x_api_key <> Some API_KEY)
  /\ (status = 400%Z
      <-> reached
          /\ ((exists e, decode_audio io audioBase64 = Raise e)
              \/ exists y m,
                   decode_audio io audioBase64 = Ok (y, 22050%Z)
                   /\ predict lib classifier y 22050 = Raise (ValueError m)))
  /\ (status = 500%Z
      <-> reached
          /\ exists y m,
               decode_audio io audioBase64 = Ok (y, 22050%Z)
               /\ predict lib classifier y 22050 = Raise (OtherError m))
  /\ (status = 200%Z
      <-> reached
          /\ exists y r,
               decode_audio io audioBase64 = Ok (y, 22050%Z)
               /\ predict lib classifier y 22050 = Ok r)
  /\ In status [422; 429; 401; 400; 500; 200]%Z.
Proof.
  cbv zeta. unfold voice_detection_route.
  destruct (str_in language SUPPORTED_LANGUAGES
            && str_in (str_lower audioFormat) SUPPORTED_FORMATS) eqn:Hvalid.
  - destruct (parse_payload_some language audioFormat audioBase64 Hvalid)
      as [f ->].
    destruct exceeded as [detail |].
    + cbn. status_cases.
    + destruct (key_right_or_wrong API_KEY x_api_key) as [-> | Hkey].
      * pose proof (body_with_key lib io API_KEY language audioBase64) as Hbody.
        destruct (decode_audio io audioBase64) as [[y sr] | e] eqn:Hdec.
        -- destruct Hbody as [-> Hbody].
           destruct (predict lib classifier y 22050) as [[[l c] ex] | [m | m]]
             eqn:Hp; rewrite Hbody; cbn; status_cases.
        -- destruct Hbody as (m & -> & Hbody). rewrite Hbody. cbn.
           status_cases.
      * rewrite (body_wrong_key lib io API_KEY x_api_key language audioBase64
                   Hkey).
        cbn. status_cases.
  - rewrite (parse_payload_none language audioFormat audioBase64 Hvalid).
    cbn. status_cases.
Qed.

(** With a missing or wrong key nothing is decoded or classified: the
    answer is the framework's 422, the limiter's 429 or the 401 of
    [detect_voice], and it is the same whatever the audio text, the decoder
    and the libraries are. *)
Theorem wrong_key_never_decodes (lib : Externals) (io : AudioBackend)
    (exceeded : option string) (API_KEY : string) (x_api_key : option string)
    (language audioFormat audioBase64 : string) :
  x_api_key <> Some API_KEY ->
  let answer :=
    voice_detection_route lib io exceeded API_KEY x_api_key
      language audioFormat audioBase64 in
  (answer = Unprocessable
   \/ (exists detail,
         exceeded = Some detail
         /\ answer = Answered (Failure 429 ("Rate limit exceeded: " ++ detail)))
   \/ answer
      = Answered (Failure 401 "Invalid API key or malformed request"))
  /\ forall lib' io' audioBase64',
       voice_detection_route lib' io' exceeded API_KEY x_api_key
         language audioFormat audioBase64'
       = answer.
Proof.
  intros Hkey. cbv zeta.
  assert (Hroute : forall l i s,
            voice_detection_route l i exceeded API_KEY x_api_key
              language audioFormat s
            = match parse_payload language audioFormat "" with
              | None => Unprocessable
              | Some _ =>
                  match exceeded with
                  | Some detail => Answered (rate_limit_handler detail)
                  | None =>
                      Answered
                        (Failure 401 "Invalid API key or malformed request")
                  end
              end).
  { intros l i s. unfold voice_detection_route, parse_payload.
    destruct (validate_language language); [| reflexivity].
    destruct (validate_format audioFormat); [| reflexivity].
    destruct exceeded; [reflexivity |].
    now rewrite body_wrong_key. }
  split.
  - rewrite Hroute.
    destruct (parse_payload language audioFormat ""); [| now left].
    destruct exceeded as [detail |]; right; [left | right]; eauto.
  - intros lib' io' audioBase64'. now rewrite !Hroute.
Qed.

Lemma wrong_key_never_decodes_witness :
  (voice_detection_route Reference.lib corrupt_backend None "secret" None
     "English" "MP3" "clip"
   = Unprocessable
   \/ (exists detail,
         (None : option string) = Some detail
         /\ voice_detection_route Reference.lib corrupt_backend None "secret"
              None "English" "MP3" "clip"
            = Answered (Failure 429 ("Rate limit exceeded: " ++ detail)))
   \/ voice_detection_route Reference.lib corrupt_backend None "secret" None
        "English" "MP3" "clip"
      = Answered (Failure 401 "Invalid API key or malformed request"))
  /\ forall lib' io' audioBase64',
       voice_detection_route lib' io' None "secret" None
         "English" "MP3" audioBase64'
       = voice_detection_route Reference.lib corrupt_backend None "secret" None
           "English" "MP3" "clip".
Proof.
  apply (wrong_key_never_decodes Reference.lib corrupt_backend None "secret"
           None "English" "MP3" "clip").
  discriminate.
Defined.
